(** * Azure SQL ingestion script ([ingest.py]): model and properties

    The script is a linear sequence of calls into pandas, SQLAlchemy and the
    file system.  The model below keeps the script's own control flow
    (driver fallback loop, encoding fallback, existence checks, replace
    writes, best-effort row counts) and treats everything behind a library
    call as an environment [world] that answers each call.  Each run
    threads a [state] made of the trace of calls and printed lines and of
    the remote database. *)

From stdpp Require Import gmap strings list pretty.

(** ** Python values used by the script *)

(** An exception object: [type(e).__name__] and [str(e)].  Only
    exceptions derived from [Exception] are modelled (library and I/O
    errors); interpreter interrupts such as [KeyboardInterrupt] are not. *)
Record exn := Exn { exn_type : string; exn_str : string }.

#[global] Instance exn_eq_dec : EqDecision exn.
Proof. solve_decision. Defined.

(** [except UnicodeDecodeError] matches on the exception class. *)
Definition is_UnicodeDecodeError (e : exn) : bool :=
  bool_decide (exn_type e = "UnicodeDecodeError").

Definition RuntimeError (msg : string) : exn := Exn "RuntimeError" msg.

(** [str(x)] for an [Optional[Exception]]. *)
Definition str_opt_exn (o : option exn) : string :=
  match o with
  | Some e => exn_str e
  | None => "None"
  end.

(** The result of [.scalar()] on a query result. *)
Inductive scalar :=
| SNone
| SInt (z : Z)
| SStr (s : string).

Definition str_scalar (v : scalar) : string :=
  match v with
  | SNone => "None"
  | SInt z => pretty z
  | SStr s => s
  end.

(** The line feed produced by [\n]. *)
Definition nl : string :=
  String (Ascii.Ascii false true false true false false false false) EmptyString.

(** The lowercase of an ASCII character: [A-Z] become [a-z].  (Bytes
    from 128 on are never passed to it by [py_lower].) *)
Definition ascii_lower (c : Ascii.ascii) : Ascii.ascii :=
  let n := Ascii.N_of_ascii c in
  if ((65 <=? n) && (n <=? 90))%N then Ascii.ascii_of_N (n + 32) else c.

(** The ASCII lowering of a string.  This is not the model of
    [str.lower()], which is [py_lower] below; it is what [py_lower] is
    shown to give on a string that is pure ASCII. *)
Fixpoint ascii_str_lower (s : string) : string :=
  match s with
  | EmptyString => EmptyString
  | String c r => String (ascii_lower c) (ascii_str_lower r)
  end.

Definition is_ascii_char (c : Ascii.ascii) : bool :=
  (Ascii.N_of_ascii c <? 128)%N.

Definition is_ascii_upper (c : Ascii.ascii) : bool :=
  let n := Ascii.N_of_ascii c in ((65 <=? n) && (n <=? 90))%N.

(** Every byte of the string is ASCII. *)
Fixpoint is_ascii_str (s : string) : bool :=
  match s with
  | EmptyString => true
  | String c r => is_ascii_char c && is_ascii_str r
  end.

(** The string has no letter in [A-Z]. *)
Fixpoint no_ascii_upper (s : string) : bool :=
  match s with
  | EmptyString => true
  | String c r => negb (is_ascii_upper c) && no_ascii_upper r
  end.

(** [needle in hay] *)
Definition str_contains (needle hay : string) : Prop :=
  ∃ pre post, hay = pre +:+ needle +:+ post.

(** ** pandas: frames and CSV reading *)

(** A cell of a DataFrame: text, the missing-value marker, or a number
    produced by type inference. *)
Inductive cell :=
| CStr (s : string)
| CNaN
| CInt (z : Z)
| CFloat (repr : string).

Record DataFrame := Frame { columns : list string; rows : list (list cell) }.

(** What the tokenizer hands to the conversion stage: column labels from
    the header row and the raw text of every field of every data row. *)
Record raw_csv := RawCsv { header : list string; records : list (list string) }.

(** pandas' default list of strings read as NaN. *)
Definition default_na_values : list string :=
  [""; "#N/A"; "#N/A N/A"; "#NA"; "-1.#IND"; "-1.#QNAN"; "-NaN"; "-nan";
   "1.#IND"; "1.#QNAN"; "<NA>"; "N/A"; "NA"; "NULL"; "NaN"; "None"; "n/a";
   "nan"; "null"].

(** ** SQLAlchemy: URLs, engines, the remote database *)

Record URL := MkURL { drivername : string; query : list (string * string) }.

Record engine := Engine { eng_url : URL; fast_executemany : bool }.

#[global] Instance URL_eq_dec : EqDecision URL.
Proof. solve_decision. Defined.
#[global] Instance engine_eq_dec : EqDecision engine.
Proof. solve_decision. Defined.

(** A value stored in a table. *)
Inductive sqlval :=
| VText (s : string)
| VNull
| VInt (z : Z)
| VFloat (repr : string).

Record sql_table := Table { tcols : list string; trows : list (list sqlval) }.

(** The database maps a qualified name such as [dbo.brand] to a table. *)
Abbreviation database := (gmap string sql_table).

Inductive if_exists_mode := IfFail | IfReplace | IfAppend.

(** The three places where the script talks to the server. *)
Inductive call_site :=
| Probe    (* build_engine, lines 53-54 *)
| Smoke    (* main, lines 81-82 *)
| Verify.  (* main, lines 101-104 *)

#[global] Instance call_site_eq_dec : EqDecision call_site.
Proof. solve_decision. Defined.

(** ** The environment

    Everything the script cannot decide by itself. *)
Record world := World {
  (* os.environ *)
  environ : gmap string string;
  (* str((BASE_DIR / "data" / name).resolve()) *)
  script_data_file : string → string;
  (* str(Path(path)) *)
  path_str : string → string;
  (* Path(path).exists(): os.stat(path) succeeds (True), fails with
     ENOENT, ENOTDIR, EBADF or ELOOP (False), or fails with another
     OSError, which exists() raises again (a name that is too long, a
     directory that may not be searched) *)
  path_exists : string → exn + bool;
  (* decoding and tokenizing of a file under an encoding
     (None is the default, UTF-8) *)
  csv_tokenize : string → option string → exn + raw_csv;
  (* type inference of pandas, used when no dtype is forced *)
  pd_infer : string → cell;
  (* the labels pandas gives to a header row that has an empty or a
     repeated cell (Unnamed: 2, Name.1, ...) *)
  pd_renamed : list string → list string;
  (* the Unicode tables of str.lower(): the lowercase, as UTF-8 text, of
     the character outside ASCII that starts at byte i of s, in its
     context (final sigma); empty for a continuation byte *)
  lower_non_ascii : string → nat → string;
  (* create_engine: None when the engine object is built *)
  create_engine_err : URL → option exn;
  (* eng.connect() *)
  connect_err : call_site → URL → option exn;
  (* conn.execute(...).scalar() and conn.exec_driver_sql(...) *)
  exec_scalar : call_site → URL → string → database → exn + scalar;
  (* to_sql: None when the write goes through *)
  to_sql_err : URL → string → string → DataFrame → option exn;
  (* what a failed write leaves under the destination name *)
  to_sql_leaves : URL → string → DataFrame → option sql_table → option sql_table
}.

(** ** Runs: trace, state, and the monad of the script *)

Inductive event :=
| EPrint (line : string)
| EUrlCreate (u : URL)
| ECreateEngine (u : URL) (fast : bool)
| EConnect (site : call_site) (u : URL)
| EExecDriverSql (site : call_site) (u : URL) (sql : string)
| EExecute (site : call_site) (u : URL) (sql : string)
| EPathExists (path : string)
| EReadCsv (path : string) (dtype_str keep_default_na : bool)
           (encoding : option string)
| EToSql (name schema : string) (mode : if_exists_mode) (index : bool)
         (df : DataFrame) (u : URL).

Record state := State { trace : list event; db : database }.

Inductive result (A : Type) :=
| Ok (a : A)
| Raise (e : exn).
Arguments Ok {A} a.
Arguments Raise {A} e.

Definition M (A : Type) : Type := state → result A * state.

Definition ret {A} (a : A) : M A := λ s, (Ok a, s).

Definition bind {A B} (m : M A) (k : A → M B) : M B :=
  λ s, match m s with
       | (Ok a, s') => k a s'
       | (Raise e, s') => (Raise e, s')
       end.

Definition raise {A} (e : exn) : M A := λ s, (Raise e, s).

(** [try: body / except C as e: handler e] where [catches] decides
    whether the raised exception is an instance of [C]. *)
Definition try_except {A} (body : M A) (catches : exn → bool)
    (handler : exn → M A) : M A :=
  λ s, match body s with
       | (Ok a, s') => (Ok a, s')
       | (Raise e, s') => if catches e then handler e s' else (Raise e, s')
       end.

Definition except_Exception (e : exn) : bool := true.

Definition add_events (s : state) (evs : list event) : state :=
  State (trace s ++ evs) (db s).

Definition emit (ev : event) : M unit := λ s, (Ok tt, add_events s [ev]).

Definition print (line : string) : M unit := emit (EPrint line).

(** A library call that either raises or goes through. *)
Definition lift_err (o : option exn) : M unit :=
  match o with
  | Some e => raise e
  | None => ret tt
  end.

Definition lift_sum {A} (r : exn + A) : M A :=
  match r with
  | inl e => raise e
  | inr a => ret a
  end.

Declare Scope py_scope.
Delimit Scope py_scope with py.
Notation "x <- m ;; k" := (bind m (λ x, k))
  (at level 100, m at next level, right associativity) : py_scope.
Notation "m ;;; k" := (bind m (λ _, k))
  (at level 100, right associativity) : py_scope.
Local Open Scope py_scope.

Definition get_db : M database := λ s, (Ok (db s), s).

(** [for x in xs: body x] *)
Fixpoint for_in {A} (xs : list A) (body : A → M unit) : M unit :=
  match xs with
  | [] => ret tt
  | x :: r => body x ;;; for_in r body
  end.

Section Script.

Variable W : world.

(** *** Library calls, as the script issues them *)

(** [os.getenv(key, default)] *)
Definition getenv (key dflt : string) : string :=
  default dflt (environ W !! key).

(** [URL.create(drivername, query=...)] *)
Definition URL_create (drv : string) (q : list (string * string)) : M URL :=
  emit (EUrlCreate (MkURL drv q)) ;;;
  ret (MkURL drv q).

(** [create_engine(url, fast_executemany=...)] *)
Definition create_engine (u : URL) (fast : bool) : M engine :=
  emit (ECreateEngine u fast) ;;;
  lift_err (create_engine_err W u) ;;;
  ret (Engine u fast).

(** An open connection remembers where it was opened and on which engine. *)
Record connection := Conn { conn_site : call_site; conn_eng : engine }.

(** [eng.connect()], entered by a [with] block. *)
Definition connect (site : call_site) (eng : engine) : M connection :=
  emit (EConnect site (eng_url eng)) ;;;
  lift_err (connect_err W site (eng_url eng)) ;;;
  ret (Conn site eng).

(** [conn.exec_driver_sql(sql)] *)
Definition exec_driver_sql (conn : connection) (sql : string) : M scalar :=
  let u := eng_url (conn_eng conn) in
  emit (EExecDriverSql (conn_site conn) u sql) ;;;
  d <- get_db ;;
  lift_sum (exec_scalar W (conn_site conn) u sql d).

(** [conn.execute(text(sql)).scalar()] *)
Definition execute_scalar (conn : connection) (sql : string) : M scalar :=
  let u := eng_url (conn_eng conn) in
  emit (EExecute (conn_site conn) u sql) ;;;
  d <- get_db ;;
  lift_sum (exec_scalar W (conn_site conn) u sql d).

(** Library model, from the pandas documentation of [read_csv].
    Conversion of one raw field: a default NA string becomes NaN unless
    [keep_default_na=False]; otherwise the text is kept under [dtype=str]
    and handed to type inference without it. *)
Definition pd_cell (dtype_str keep_default_na : bool) (raw : string) : cell :=
  if keep_default_na && bool_decide (raw ∈ default_na_values) then CNaN
  else if dtype_str then CStr raw
  else pd_infer W raw.

(** Library model, from the pandas documentation of [read_csv].  The
    header cells are the column labels when none of them is empty and
    none is repeated; otherwise pandas renames cells, as the environment
    says. *)
Definition pd_labels (cells : list string) : list string :=
  if decide (NoDup cells ∧ "" ∉ cells) then cells else pd_renamed W cells.

(** The frame built from the tokenized file: the labels of the header
    row, every field converted. *)
Definition pd_frame (dtype_str keep_default_na : bool) (raw : raw_csv)
    : DataFrame :=
  Frame (pd_labels (header raw))
        (map (map (pd_cell dtype_str keep_default_na)) (records raw)).

(** [s.lower()] on the UTF-8 text of a Python string.  An ASCII
    character is lowered on the spot; a character outside ASCII is
    lowered by the Unicode tables of Python, which the environment
    supplies. *)
Fixpoint lower_from (whole : string) (i : nat) (rest : string) : string :=
  match rest with
  | EmptyString => EmptyString
  | String c r =>
      (if is_ascii_char c then String (ascii_lower c) EmptyString
       else lower_non_ascii W whole i)
      +:+ lower_from whole (S i) r
  end.

Definition py_lower (s : string) : string := lower_from s 0 s.

(** [pd.read_csv(path, dtype=..., keep_default_na=..., encoding=...)] *)
Definition pd_read_csv (path : string) (dtype_str keep_default_na : bool)
    (encoding : option string) : M DataFrame :=
  emit (EReadCsv path dtype_str keep_default_na encoding) ;;;
  raw <- lift_sum (csv_tokenize W path encoding) ;;
  ret (pd_frame dtype_str keep_default_na raw).

Definition sql_of_cell (c : cell) : sqlval :=
  match c with
  | CStr s => VText s
  | CNaN => VNull
  | CInt z => VInt z
  | CFloat r => VFloat r
  end.

(** Library model, from the pandas documentation of [to_sql].  The
    table created from a frame: one column per frame column, preceded by
    the index when [index=True]; NaN is stored as NULL. *)
Definition frame_to_table (index : bool) (df : DataFrame) : sql_table :=
  Table ((if index then ["index"] else []) ++ columns df)
        (imap (λ i r, (if index then [VInt (Z.of_nat i)] else [])
                        ++ map sql_of_cell r) (rows df)).

Definition qualified (schema name : string) : string :=
  schema +:+ "." +:+ name.

Definition set_db (d : database) : M unit := λ s, (Ok tt, State (trace s) d).

(** [df.to_sql(name, eng, schema=..., if_exists=..., index=...)], with
    the documented meaning of [if_exists]: [fail] raises when the table
    exists, [replace] drops it and creates it anew from the frame,
    [append] adds the rows to it.  A failed write touches nothing but its
    own destination, which it leaves as the environment says. *)
Definition to_sql (df : DataFrame) (name : string) (eng : engine)
    (schema : string) (mode : if_exists_mode) (index : bool) : M unit :=
  let u := eng_url eng in
  let key := qualified schema name in
  emit (EToSql name schema mode index df u) ;;;
  d <- get_db ;;
  match to_sql_err W u name schema df with
  | Some e =>
      set_db (match to_sql_leaves W u key df (d !! key) with
              | Some t => <[key := t]> d
              | None => delete key d
              end) ;;;
      raise e
  | None =>
      let new := frame_to_table index df in
      match mode, d !! key with
      | IfFail, Some _ =>
          raise (Exn "ValueError" ("Table '" +:+ name +:+ "' already exists."))
      | IfAppend, Some old =>
          set_db (<[key := Table (tcols old) (trows old ++ trows new)]> d)
      | _, _ => set_db (<[key := new]> d)
      end
  end.

(** [Path(path).exists()] *)
Definition Path_exists (path : string) : M bool :=
  emit (EPathExists path) ;;;
  lift_sum (path_exists W path).

(** *** Configuration (lines 23-31) *)

Definition SERVER : string :=
  getenv "AZURE_SQL_SERVER" "hwdbms-server.database.windows.net".
Definition DATABASE : string := getenv "AZURE_SQL_DATABASE" "hwdbms".
Definition USERNAME : string := getenv "AZURE_SQL_USER" "hwdbms".
Definition PASSWORD : string := getenv "AZURE_SQL_PASSWORD" "Init@123".

Definition BRAND_CSV : string :=
  getenv "BRAND_CSV" (script_data_file W "brand-detail-url-etc_0_0_0.csv").
Definition SPEND_CSV : string :=
  getenv "SPEND_CSV"
    (script_data_file W
       "2021-01-19--data_01be88c2-0306-48b3-0042-fa0703282ad6_1304_5_0.csv").

(** *** build_engine (lines 35-60) *)

Definition candidates : list string :=
  [ "ODBC Driver 18 for SQL Server";
    "ODBC Driver 17 for SQL Server" ].

(** The connection string of lines 45-49. *)
Definition odbc_string (driver : string) : string :=
  "DRIVER={" +:+ driver +:+ "};"
  +:+ "SERVER=" +:+ SERVER +:+ ";DATABASE=" +:+ DATABASE
  +:+ ";UID=" +:+ USERNAME +:+ ";PWD=" +:+ PASSWORD +:+ ";"
  +:+ "Encrypt=yes;TrustServerCertificate=no;Connection Timeout=30;".

(** The body of the [try] block for one candidate (lines 44-56). *)
Definition try_driver (driver : string) : M engine :=
  print ("[INFO] Trying ODBC driver: " +:+ driver) ;;;
  let odbc := odbc_string driver in
  url <- URL_create "mssql+pyodbc" [("odbc_connect", odbc)] ;;
  eng <- create_engine url true ;;
  (conn <- connect Probe eng ;;
   _ <- exec_driver_sql conn "SELECT 1" ;;
   ret tt) ;;;
  print ("[INFO] Using driver: " +:+ driver) ;;;
  ret eng.

(** The [for] loop over the candidates with its [last_err] variable; the
    [return] inside the [try] leaves the loop. *)
Fixpoint build_engine_from (cands : list string) (last_err : option exn)
    : M engine :=
  match cands with
  | [] =>
      raise (RuntimeError ("No usable ODBC driver found. Last error: "
                           +:+ str_opt_exn last_err))
  | driver :: rest =>
      try_except (try_driver driver) except_Exception
        (λ e,
           print ("[WARN] Driver failed: " +:+ driver +:+ " -> "
                  +:+ exn_type e +:+ ": " +:+ exn_str e) ;;;
           build_engine_from rest (Some e))
  end.

Definition build_engine : M engine := build_engine_from candidates None.

(** *** read_csv_any (lines 62-67) *)

Definition read_csv_any (path : string) : M DataFrame :=
  try_except (pd_read_csv path true false None) is_UnicodeDecodeError
    (λ _, pd_read_csv path true false (Some "latin-1")).

(** *** ensure_exists (lines 69-74) *)

Definition ensure_exists (path : string) : M bool :=
  b <- Path_exists path ;;
  if negb b then
    print ("[WARN] File not found: " +:+ path_str W path
           +:+ ". Set BRAND_CSV/SPEND_CSV env vars if paths differ.") ;;;
    ret false
  else ret true.

(** *** main (lines 76-109) *)

Definition set_columns (df : DataFrame) (cols : list string) : DataFrame :=
  Frame cols (rows df).

(** Lines 81-83. *)
Definition main_smoke_test (eng : engine) : M unit :=
  conn <- connect Smoke eng ;;
  ver <- execute_scalar conn "SELECT @@VERSION" ;;
  print ("[OK] Connected to SQL Server:" +:+ nl +:+ str_scalar ver +:+ nl).

(** Lines 86-91. *)
Definition main_ingest_brand (eng : engine) : M unit :=
  b <- ensure_exists BRAND_CSV ;;
  if b then
    print ("[INFO] Reading brand CSV: " +:+ BRAND_CSV) ;;;
    brand_df <- read_csv_any BRAND_CSV ;;
    let brand_df := set_columns brand_df (map py_lower (columns brand_df)) in
    print "[INFO] Writing dbo.brand ..." ;;;
    to_sql brand_df "brand" eng "dbo" IfReplace false
  else ret tt.

(** Lines 93-98. *)
Definition main_ingest_spend (eng : engine) : M unit :=
  b <- ensure_exists SPEND_CSV ;;
  if b then
    print ("[INFO] Reading spend CSV: " +:+ SPEND_CSV) ;;;
    spend_df <- read_csv_any SPEND_CSV ;;
    let spend_df := set_columns spend_df (map py_lower (columns spend_df)) in
    print "[INFO] Writing dbo.daily_spend ..." ;;;
    to_sql spend_df "daily_spend" eng "dbo" IfReplace false
  else ret tt.

(** Lines 101-107. *)
Definition main_sanity_counts (eng : engine) : M unit :=
  conn <- connect Verify eng ;;
  for_in ["brand"; "daily_spend"] (λ t,
    try_except
      (cnt <- execute_scalar conn ("SELECT COUNT(*) FROM dbo." +:+ t) ;;
       print ("[OK] " +:+ t +:+ ": " +:+ str_scalar cnt +:+ " rows"))
      except_Exception
      (λ _, ret tt)).

Definition main : M unit :=
  print "[INFO] Connecting to Azure SQL..." ;;;
  eng <- build_engine ;;
  main_smoke_test eng ;;;
  main_ingest_brand eng ;;;
  main_ingest_spend eng ;;;
  main_sanity_counts eng ;;;
  print "[DONE] Ingestion complete.".

End Script.

(** ** Observations on traces *)

Definition urls_created (evs : list event) : list URL :=
  omap (λ ev, match ev with EUrlCreate u => Some u | _ => None end) evs.

Definition printed (evs : list event) : list string :=
  omap (λ ev, match ev with EPrint l => Some l | _ => None end) evs.

(** The engine URL an event refers to, if any. *)
Definition event_url (ev : event) : option URL :=
  match ev with
  | EUrlCreate u | ECreateEngine u _ | EConnect _ u
  | EExecDriverSql _ u _ | EExecute _ u _ | EToSql _ _ _ _ _ u => Some u
  | EPrint _ | EPathExists _ | EReadCsv _ _ _ _ => None
  end.

Definition is_read_csv (ev : event) : bool :=
  match ev with EReadCsv _ _ _ _ => true | _ => false end.

Definition is_to_sql (ev : event) : bool :=
  match ev with EToSql _ _ _ _ _ _ => true | _ => false end.

(** Writes issued to a destination name. *)
Definition is_write_to (name : string) (ev : event) : bool :=
  match ev with
  | EToSql n _ _ _ _ _ => bool_decide (n = name)
  | _ => false
  end.

Definition event_site (ev : event) : option call_site :=
  match ev with
  | EConnect st _ | EExecDriverSql st _ _ | EExecute st _ _ => Some st
  | _ => None
  end.

Definition is_verify (ev : event) : bool :=
  bool_decide (event_site ev = Some Verify).

Definition is_path_check (ev : event) : bool :=
  match ev with EPathExists _ => true | _ => false end.

(** ** Vocabulary of the statements

    Pure descriptions of what a call does, against which the runs of the
    script are compared. *)

Section Vocabulary.

Variable W : world.

(** The URL and the engine that line 50-51 build for a driver. *)
Definition url_for (driver : string) : URL :=
  MkURL "mssql+pyodbc" [("odbc_connect", odbc_string W driver)].

Definition engine_for (driver : string) : engine :=
  Engine (url_for driver) true.

(** The first error met when probing a driver against database [d]:
    engine creation, then the connection, then [SELECT 1]. *)
Definition probe_error (d : database) (driver : string) : option exn :=
  match create_engine_err W (url_for driver) with
  | Some e => Some e
  | None =>
      match connect_err W Probe (url_for driver) with
      | Some e => Some e
      | None =>
          match exec_scalar W Probe (url_for driver) "SELECT 1" d with
          | inl e => Some e
          | inr _ => None
          end
      end
  end.

Definition warn_line (driver : string) (e : exn) : string :=
  "[WARN] Driver failed: " +:+ driver +:+ " -> "
  +:+ exn_type e +:+ ": " +:+ exn_str e.

(** The lines printed for a candidate that fails. *)
Definition fail_lines (d : database) (driver : string) : list string :=
  match probe_error d driver with
  | Some e => ["[INFO] Trying ODBC driver: " +:+ driver; warn_line driver e]
  | None => []
  end.

(** The value of [last_err] after a run of failing candidates. *)
Definition last_err_after (d : database) (pre : list string)
    (last_err : option exn) : option exn :=
  foldl (λ _ c, probe_error d c) last_err pre.

(** The result of a read whose tokenizing gave [r]. *)
Definition frame_result (dt keep : bool) (r : exn + raw_csv)
    : result DataFrame :=
  match r with
  | inl e => Raise e
  | inr raw => Ok (pd_frame W dt keep raw)
  end.

(** What read_csv_any gets out of the tokenizer: the default encoding
    first, Latin-1 only after a decoding error. *)
Definition load_outcome (path : string) : exn + raw_csv :=
  match csv_tokenize W path None with
  | inr raw => inr raw
  | inl e =>
      if is_UnicodeDecodeError e then csv_tokenize W path (Some "latin-1")
      else inl e
  end.

(** The read events of one call of read_csv_any. *)
Definition load_events (path : string) : list event :=
  EReadCsv path true false None ::
  match csv_tokenize W path None with
  | inl e =>
      if is_UnicodeDecodeError e
      then [EReadCsv path true false (Some "latin-1")] else []
  | inr _ => []
  end.

(** The state after a write to [key]. *)
Definition write_state (s : state) (ev : event) (d : database) : state :=
  State (trace s ++ [ev]) d.

(** The frame handed to to_sql and the table it becomes. *)
Definition lowered_frame (raw : raw_csv) : DataFrame :=
  Frame (map (py_lower W) (pd_labels W (header raw)))
        (map (map CStr) (records raw)).

(** The columns [cols] written for a file that tokenized as [raw]: they
    are the lowercase of the labels of the frame, in order; the labels
    are the header cells themselves when none is empty or repeated; and
    the lowercase of a label that is pure ASCII is that label with
    [A-Z] turned into [a-z], in which no capital is left. *)
Definition lowered_columns (raw : raw_csv) (cols : list string) : Prop :=
  cols = map (py_lower W) (pd_labels W (header raw))
  ∧ (∀ c, c ∈ cols ↔ ∃ l, l ∈ pd_labels W (header raw) ∧ c = py_lower W l)
  ∧ (NoDup (header raw) → "" ∉ header raw →
     ∀ c, c ∈ cols ↔ ∃ h, h ∈ header raw ∧ c = py_lower W h)
  ∧ Forall2 (λ l c, is_ascii_str l = true →
                    c = ascii_str_lower l ∧ no_ascii_upper c = true)
      (pd_labels W (header raw)) cols.

Definition written_table (raw : raw_csv) : sql_table :=
  Table (map (py_lower W) (pd_labels W (header raw)))
        (map (map VText) (records raw)).

(** Lines 86-91 and 93-98 of main are the same block up to the label
    printed, the path read and the destination name. *)
Definition ingest_block (label path name : string) (eng : engine) : M unit :=
  b <- ensure_exists W path ;;
  if b then
    print ("[INFO] Reading " +:+ label +:+ " CSV: " +:+ path) ;;;
    df <- read_csv_any W path ;;
    let df := set_columns df (map (py_lower W) (columns df)) in
    print ("[INFO] Writing dbo." +:+ name +:+ " ...") ;;;
    to_sql W df name eng "dbo" IfReplace false
  else ret tt.

Definition missing_warning (path : string) : string :=
  "[WARN] File not found: " +:+ path_str W path
  +:+ ". Set BRAND_CSV/SPEND_CSV env vars if paths differ.".

(** Events of a block up to and including the read. *)
Definition read_phase (label path : string) : list event :=
  EPathExists path
  :: EPrint ("[INFO] Reading " +:+ label +:+ " CSV: " +:+ path)
  :: load_events path.

(** Events of a block whose read succeeded with [raw]. *)
Definition write_phase (label path name : string) (eng : engine)
    (raw : raw_csv) : list event :=
  read_phase label path
  ++ [EPrint ("[INFO] Writing dbo." +:+ name +:+ " ...");
      EToSql name "dbo" IfReplace false (lowered_frame raw) (eng_url eng)].

(** Events that building the engine and the smoke test can produce. *)
Definition is_connection_event (ev : event) : bool :=
  match ev with
  | EPrint _ | EUrlCreate _ | ECreateEngine _ _ => true
  | EConnect Probe _ | EConnect Smoke _ => true
  | EExecDriverSql Probe _ _ | EExecute Smoke _ _ => true
  | _ => false
  end.

(** The run got through lines 77-83 with engine [eng], reaching [s2]. *)
Definition connected (s0 : state) (eng : engine) (s2 : state) : Prop :=
  ∃ s1,
    build_engine W (add_events s0 [EPrint "[INFO] Connecting to Azure SQL..."])
    = (Ok eng, s1)
    ∧ main_smoke_test W eng s1 = (Ok tt, s2).

Definition count_sql (t : string) : string :=
  "SELECT COUNT(*) FROM dbo." +:+ t.

Definition count_line (t : string) (cnt : scalar) : string :=
  "[OK] " +:+ t +:+ ": " +:+ str_scalar cnt +:+ " rows".

(** One turn of the loop: the query, and the count line if it answered. *)
Definition count_events (eng : engine) (d : database) (t : string)
    : list event :=
  EExecute Verify (eng_url eng) (count_sql t)
  :: match exec_scalar W Verify (eng_url eng) (count_sql t) d with
     | inr cnt => [EPrint (count_line t cnt)]
     | inl _ => []
     end.

Definition sanity_events (eng : engine) (d : database) : list event :=
  EConnect Verify (eng_url eng)
  :: count_events eng d "brand" ++ count_events eng d "daily_spend".

Definition done_line : string := "[DONE] Ingestion complete.".

(** Events an ingestion block for [path] and [name] can produce. *)
Definition is_block_event (path name : string) (ev : event) : bool :=
  match ev with
  | EPrint _ => true
  | EPathExists p => bool_decide (p = path)
  | EReadCsv p _ _ _ => bool_decide (p = path)
  | EToSql n _ _ _ _ _ => bool_decide (n = name)
  | _ => false
  end.

(** A source that exists, loads as [raw] and is written without error. *)
Definition loaded_and_written (eng : engine) (path name : string)
    (raw : raw_csv) : Prop :=
  path_exists W path = inr true
  ∧ load_outcome path = inr raw
  ∧ to_sql_err W (eng_url eng) name "dbo" (lowered_frame raw) = None.

Definition is_sanity_event (ev : event) : bool :=
  match ev with
  | EPrint _ | EConnect Verify _ | EExecute Verify _ _ => true
  | _ => false
  end.

End Vocabulary.

(** ** Concrete environments

    A small server and file system on which the script can be run by
    computation. *)
Module Sample.

Fixpoint strip_prefix (p s : string) : option string :=
  match p, s with
  | EmptyString, _ => Some s
  | String a p', String b s' =>
      if bool_decide (a = b) then strip_prefix p' s' else None
  | String _ _, EmptyString => None
  end.

(** A server that answers the three statements the script sends. *)
Definition server_exec (site : call_site) (u : URL) (sql : string)
    (d : database) : exn + scalar :=
  if bool_decide (sql = "SELECT 1") then inr (SInt 1)
  else if bool_decide (sql = "SELECT @@VERSION")
  then inr (SStr "Microsoft SQL Azure (RTM) - 12.0.2000.8")
  else match strip_prefix "SELECT COUNT(*) FROM " sql with
       | Some name =>
           match d !! name with
           | Some t => inr (SInt (Z.of_nat (length (trows t))))
           | None =>
               inl (Exn "ProgrammingError"
                        ("Invalid object name '" +:+ name +:+ "'."))
           end
       | None => inl (Exn "ProgrammingError" "Incorrect syntax.")
       end.

(** A file decodes under every encoding, only under Latin-1, or cannot be
    parsed at all. *)
Inductive file :=
| Utf8 (c : raw_csv)
| Latin1 (c : raw_csv)
| Malformed (e : exn).

Definition decode_error : exn :=
  Exn "UnicodeDecodeError"
      "'utf-8' codec can't decode byte 0xe9 in position 7: invalid continuation byte".

Definition parser_error : exn :=
  Exn "ParserError" "Error tokenizing data. C error: Expected 2 fields in line 3, saw 4".

Definition tokenize (files : gmap string file) (path : string)
    (enc : option string) : exn + raw_csv :=
  match files !! path with
  | None => inl (Exn "FileNotFoundError" ("No such file or directory: " +:+ path))
  | Some (Utf8 c) => inr c
  | Some (Latin1 c) =>
      match enc with
      | None => inl decode_error
      | Some _ => inr c
      end
  | Some (Malformed e) => inl e
  end.

(** The renaming of pandas on a header row: an empty cell at position
    [i] becomes [Unnamed: i], and the [k]-th repetition of a name [X]
    becomes [X.k]. *)
Definition name_cell (i : nat) (cell : string) : string :=
  if bool_decide (cell = "") then "Unnamed: " +:+ pretty i else cell.

Fixpoint mangle (seen : list string) (cells : list string) : list string :=
  match cells with
  | [] => []
  | c :: r =>
      let k := length (filter (λ x, x = c) seen) in
      (if bool_decide (k = 0) then c else c +:+ "." +:+ pretty k)
      :: mangle (c :: seen) r
  end.

Definition pandas_labels (cells : list string) : list string :=
  mangle [] (imap name_cell cells).

(** The part of the Unicode tables that the samples need: the capitals
    U+00C0 to U+00DE (UTF-8 lead byte C3, second byte 80 to 9E), except
    the multiplication sign U+00D7, are lowered by adding 32 to the
    second byte.  Any other character outside ASCII is kept. *)
Definition latin1_lower (s : string) (i : nat) : string :=
  match String.get i s with
  | None => ""
  | Some b =>
      let n := Ascii.N_of_ascii b in
      if (n =? 195)%N then
        match String.get (S i) s with
        | Some b2 =>
            let m := Ascii.N_of_ascii b2 in
            String b
              (String (if ((128 <=? m) && (m <=? 158)
                           && negb (m =? 151))%N
                       then Ascii.ascii_of_N (m + 32) else b2) "")
        | None => String b ""
        end
      else if ((128 <=? n) && (n <=? 191))%N
              && bool_decide (String.get (pred i) s
                              = Some (Ascii.ascii_of_N 195))
      then ""
      else String b ""
  end.

Definition odbc_of (u : URL) : string :=
  default "" (snd <$> head (query u)).

(** The drivers installed on the host. *)
Definition driver_error (installed : list string) (u : URL) : option exn :=
  if existsb (λ d, String.prefix ("DRIVER={" +:+ d +:+ "};") (odbc_of u))
       installed
  then None
  else Some (Exn "InterfaceError"
               "('IM002', '[IM002] Data source name not found and no default driver specified')").

(** The longest name that a directory entry can have (NAME_MAX). *)
Definition name_max : nat := 255.

(** The length of the longest component of a path. *)
Fixpoint longest_name (cur best : nat) (path : string) : nat :=
  match path with
  | EmptyString => cur `max` best
  | String c r =>
      if Ascii.eqb c (Ascii.ascii_of_nat 47)
      then longest_name 0 (cur `max` best) r
      else longest_name (S cur) best r
  end.

Definition name_too_long (path : string) : exn :=
  Exn "OSError" ("[Errno 36] File name too long: '" +:+ path +:+ "'").

(** [Path(path).exists()] on a file system that holds [files]: os.stat
    fails with ENAMETOOLONG on a component longer than NAME_MAX, and
    exists() lets that error through; otherwise the answer is whether
    the file is there. *)
Definition exists_on (files : gmap string file) (path : string)
    : exn + bool :=
  if decide (name_max < longest_name 0 0 path) then inl (name_too_long path)
  else inr (bool_decide (is_Some (files !! path))).

Definition mk_env (env : gmap string string) (installed : list string)
    (files : gmap string file) : world :=
  {| environ := env;
     script_data_file := λ name, "/hw8/data/" +:+ name;
     path_str := λ p, p;
     path_exists := exists_on files;
     csv_tokenize := tokenize files;
     pd_infer := CStr;
     pd_renamed := pandas_labels;
     lower_non_ascii := latin1_lower;
     create_engine_err := λ _, None;
     connect_err := λ site u,
       match site with
       | Probe => driver_error installed u
       | _ => None
       end;
     exec_scalar := server_exec;
     to_sql_err := λ _ _ _ _, None;
     to_sql_leaves := λ _ _ _ old, old |}.

Definition mk : list string → gmap string file → world := mk_env ∅.

Definition driver18 : string := "ODBC Driver 18 for SQL Server".
Definition driver17 : string := "ODBC Driver 17 for SQL Server".

Definition brand_path : string := "/hw8/data/brand-detail-url-etc_0_0_0.csv".
Definition spend_path : string :=
  "/hw8/data/2021-01-19--data_01be88c2-0306-48b3-0042-fa0703282ad6_1304_5_0.csv".

(** A brand file of three rows, one field of which is empty, and a spend
    file that only decodes under Latin-1. *)
Definition brand_csv : raw_csv :=
  RawCsv ["ID"; "Name"] [["1"; "Acme"]; ["2"; "Globex"]; ["3"; ""]].

Definition spend_csv : raw_csv :=
  RawCsv ["Brand_ID"; "SPEND"; "NA"] [["1"; "10.50"; "NULL"]].

Definition both_files : gmap string file :=
  {[ brand_path := Utf8 brand_csv; spend_path := Latin1 spend_csv ]}.

(** Only driver 17 is installed; both files are there. *)
Definition w17 : world := mk [driver17] both_files.

(** No driver is installed. *)
Definition w_nodriver : world := mk [] both_files.

(** The brand file is missing. *)
Definition w_nobrand : world :=
  mk [driver18] {[ spend_path := Latin1 spend_csv ]}.

(** The spend file is missing. *)
Definition w_nospend : world :=
  mk [driver18] {[ brand_path := Utf8 brand_csv ]}.

(** A brand file whose header row repeats a name and ends in an empty
    cell. *)
Definition repeated_csv : raw_csv :=
  RawCsv ["Name"; "Name"; ""] [["Acme"; "Acme Corp"; "x"]].

Definition w_repeated : world :=
  mk [driver18] {[ brand_path := Utf8 repeated_csv;
                   spend_path := Latin1 spend_csv ]}.

(** A brand file with a header cell outside ASCII. *)
Definition accented_csv : raw_csv :=
  RawCsv ["ID"; "ÉCOLE"] [["1"; "Lycée"]].

Definition w_accented : world :=
  mk [driver18] {[ brand_path := Utf8 accented_csv;
                   spend_path := Latin1 spend_csv ]}.

(** A path whose last component has 300 characters: no file of that
    name can be on any disk. *)
Definition long_path : string :=
  "/hw8/data/" +:+ String.concat "" (replicate 300 "b") +:+ ".csv".

(** BRAND_CSV, respectively SPEND_CSV, is set to that path. *)
Definition w_longbrand : world :=
  mk_env {[ "BRAND_CSV" := long_path ]} [driver18] both_files.

Definition w_longspend : world :=
  mk_env {[ "SPEND_CSV" := long_path ]} [driver18] both_files.

(** The brand file cannot be parsed. *)
Definition w_badbrand : world :=
  mk [driver18; driver17]
     {[ brand_path := Malformed parser_error; spend_path := Utf8 spend_csv ]}.

(** A database in which [dbo.brand] already holds two rows. *)
Definition old_brand : sql_table :=
  Table ["id"; "name"] [[VText "1"; VText "Acme"]; [VText "2"; VText "Globex"]].

Definition s_init : state := State [] {[ "dbo.brand" := old_brand ]}.

Definition s_empty : state := State [] ∅.

(** The state at which a run has finished the connection phase. *)
Definition after_connection (W : world) (s0 : state) : state :=
  match build_engine W
          (add_events s0 [EPrint "[INFO] Connecting to Azure SQL..."]) with
  | (Ok eng, s1) => (main_smoke_test W eng s1).2
  | (Raise _, s1) => s1
  end.

End Sample.

(** ** The calls a run may issue

    main goes through four kinds of work in a fixed order: building the
    engine, the smoke test, one ingestion block per source, the counts.
    [call_of] lists, for each of them, the library calls that the code of
    that part contains. *)

Inductive phase :=
| Build                              (* lines 77-78, build_engine *)
| SmokeTest                          (* lines 81-83 *)
| Ingest (path name : string)        (* lines 86-91 and 93-98 *)
| Counts.                            (* lines 101-107 *)

(** The tail of every connection string (line 48). *)
Definition encryption_flags : string :=
  "Encrypt=yes;TrustServerCertificate=no;Connection Timeout=30;".

(** The statements that the script sends to the server. *)
Definition script_statements : list string :=
  [ "SELECT 1"; "SELECT @@VERSION";
    "SELECT COUNT(*) FROM dbo.brand"; "SELECT COUNT(*) FROM dbo.daily_spend" ].

Definition script_tables : list string := ["brand"; "daily_spend"].

Section Calls.

Variable W : world.

(** The URLs of the two candidate drivers. *)
Definition script_urls : list URL := map (url_for W) candidates.

Definition script_paths : list string := [BRAND_CSV W; SPEND_CSV W].

Definition call_of (ph : phase) (ev : event) : Prop :=
  match ev with
  | EPrint l => l ≠ done_line
  | EUrlCreate u => ph = Build ∧ u ∈ script_urls
  | ECreateEngine u fast => ph = Build ∧ u ∈ script_urls ∧ fast = true
  | EConnect site u =>
      u ∈ script_urls
      ∧ ((ph = Build ∧ site = Probe) ∨ (ph = SmokeTest ∧ site = Smoke)
         ∨ (ph = Counts ∧ site = Verify))
  | EExecDriverSql site u sql =>
      ph = Build ∧ site = Probe ∧ u ∈ script_urls ∧ sql = "SELECT 1"
  | EExecute site u sql =>
      u ∈ script_urls
      ∧ ((ph = SmokeTest ∧ site = Smoke ∧ sql = "SELECT @@VERSION")
         ∨ (ph = Counts ∧ site = Verify
            ∧ ∃ t, t ∈ script_tables ∧ sql = count_sql t))
  | EPathExists p => ∃ name, ph = Ingest p name
  | EReadCsv p dt keep enc =>
      (∃ name, ph = Ingest p name)
      ∧ dt = true ∧ keep = false ∧ (enc = None ∨ enc = Some "latin-1")
  | EToSql n sch mode idx df u =>
      (∃ path raw, ph = Ingest path n
                   ∧ load_outcome W path = inr raw
                   ∧ df = lowered_frame W raw)
      ∧ sch = "dbo" ∧ mode = IfReplace ∧ idx = false
      ∧ u ∈ script_urls
  end.

(** The parts of a run of main, in the order of the code. *)
Definition main_phases : list phase :=
  [ Build; SmokeTest; Ingest (BRAND_CSV W) "brand";
    Ingest (SPEND_CSV W) "daily_spend"; Counts ].

(** A call that some part of main contains. *)
Definition script_call (ev : event) : Prop :=
  ∃ ph, ph ∈ main_phases ∧ call_of ph ev.

(** What one ingestion block makes of the database when it returns. *)
Definition ingested (path name : string) (d : database) : database :=
  match path_exists W path with
  | inr true =>
      match load_outcome W path with
      | inr raw => <[qualified "dbo" name := written_table W raw]> d
      | inl _ => d
      end
  | _ => d
  end.

(** The database after a run that returns normally. *)
Definition db_after_run (d : database) : database :=
  ingested (SPEND_CSV W) "daily_spend" (ingested (BRAND_CSV W) "brand" d).

End Calls.

(** ** Environments with faults *)
Module Faults.

Definition connection_lost : exn :=
  Exn "OperationalError" "('08S01', '[08S01] Communication link failure')".

Definition permission_denied : exn :=
  Exn "ProgrammingError" "('42000', '[42000] CREATE TABLE permission denied in database')".

(** [W] with a connection that cannot be opened at [site]. *)
Definition no_connection_at (site : call_site) (W : world) : world :=
  {| environ := environ W;
     script_data_file := script_data_file W;
     path_str := path_str W;
     path_exists := path_exists W;
     csv_tokenize := csv_tokenize W;
     pd_infer := pd_infer W;
     pd_renamed := pd_renamed W;
     lower_non_ascii := lower_non_ascii W;
     create_engine_err := create_engine_err W;
     connect_err := λ st u,
       if bool_decide (st = site) then Some connection_lost
       else connect_err W st u;
     exec_scalar := exec_scalar W;
     to_sql_err := to_sql_err W;
     to_sql_leaves := to_sql_leaves W |}.

(** [W] with every write to [name] refused; the table is left as it was. *)
Definition no_write_to (name : string) (W : world) : world :=
  {| environ := environ W;
     script_data_file := script_data_file W;
     path_str := path_str W;
     path_exists := path_exists W;
     csv_tokenize := csv_tokenize W;
     pd_infer := pd_infer W;
     pd_renamed := pd_renamed W;
     lower_non_ascii := lower_non_ascii W;
     create_engine_err := create_engine_err W;
     connect_err := connect_err W;
     exec_scalar := exec_scalar W;
     to_sql_err := λ u n sch df,
       if bool_decide (n = name) then Some permission_denied
       else to_sql_err W u n sch df;
     to_sql_leaves := λ _ _ _ old, old |}.

(** [W] in which the statement [sql] fails at [site]. *)
Definition no_answer_to (site : call_site) (sql : string) (W : world)
    : world :=
  {| environ := environ W;
     script_data_file := script_data_file W;
     path_str := path_str W;
     path_exists := path_exists W;
     csv_tokenize := csv_tokenize W;
     pd_infer := pd_infer W;
     pd_renamed := pd_renamed W;
     lower_non_ascii := lower_non_ascii W;
     create_engine_err := create_engine_err W;
     connect_err := connect_err W;
     exec_scalar := λ st u q d,
       if bool_decide (st = site ∧ q = sql) then inl connection_lost
       else exec_scalar W st u q d;
     to_sql_err := to_sql_err W;
     to_sql_leaves := to_sql_leaves W |}.

Definition w_smoke_fails : world := no_connection_at Smoke Sample.w17.

Definition w_version_fails : world :=
  no_answer_to Smoke "SELECT @@VERSION" Sample.w17.

Definition w_verify_fails : world := no_connection_at Verify Sample.w17.

Definition w_nobrand_verify_fails : world :=
  no_connection_at Verify Sample.w_nobrand.


Definition w_brand_refused : world := no_write_to "brand" Sample.w17.

Definition w_spend_refused : world := no_write_to "daily_spend" Sample.w17.

(** A database with a table that the script does not know. *)
Definition s_other : state :=
  State [] {[ "dbo.brand" := Sample.old_brand;
              "dbo.audit" := Table ["who"] [[VText "dba"]] ]}.

End Faults.

(** ** Basic facts about runs *)

(** Tactics that settle a closed statement about a concrete run by
    evaluating it. *)
Ltac run_connected := eexists; split; vm_compute; reflexivity.
Ltac run_loaded := repeat split; vm_compute; reflexivity.

Lemma add_events_nil s : add_events s [] = s.
Proof. destruct s as [t d]. unfold add_events. simpl. by rewrite app_nil_r. Qed.

Lemma add_events_app s e1 e2 :
  add_events (add_events s e1) e2 = add_events s (e1 ++ e2).
Proof. unfold add_events. simpl. by rewrite app_assoc. Qed.

Lemma bind_Ok {A B} (m : M A) (k : A → M B) s a s' :
  m s = (Ok a, s') → bind m k s = k a s'.
Proof. unfold bind. by intros ->. Qed.

Lemma bind_Raise {A B} (m : M A) (k : A → M B) s e s' :
  m s = (Raise e, s') → bind m k s = (Raise e, s').
Proof. unfold bind. by intros ->. Qed.

Lemma str_contains_suffix pre needle :
  str_contains needle (pre +:+ needle).
Proof.
  exists pre, "". f_equal.
  induction needle as [|a r IH]; [done|]. by rewrite IH at 1.
Qed.

Lemma str_app_assoc (a b c : string) : (a +:+ b) +:+ c = a +:+ b +:+ c.
Proof.
  induction a as [|x a IH]; [done|].
  change (String x ((a +:+ b) +:+ c) = String x (a +:+ b +:+ c)).
  by rewrite IH.
Qed.

Section Facts.

Variable W : world.

Lemma try_driver_run driver s :
  ∃ evs,
    try_driver W driver s
    = (match probe_error W (db s) driver with
       | None => Ok (engine_for W driver)
       | Some e => Raise e
       end, add_events s evs)
    ∧ urls_created evs = [url_for W driver]
    ∧ Forall (λ ev, event_url ev = None
                    ∨ event_url ev = Some (url_for W driver)) evs
    ∧ (probe_error W (db s) driver = None →
       last evs = Some (EPrint ("[INFO] Using driver: " +:+ driver)))
    ∧ (is_Some (probe_error W (db s) driver) →
       printed evs = ["[INFO] Trying ODBC driver: " +:+ driver]).
Proof.
  unfold try_driver, probe_error, URL_create, create_engine, connect,
    exec_driver_sql, print, emit, bind, ret, lift_err, lift_sum, get_db, raise.
  fold (url_for W driver). simpl.
  destruct (create_engine_err W (url_for W driver)) as [e|]; simpl;
    [|destruct (connect_err W Probe (url_for W driver)) as [e|]; simpl;
      [|destruct (exec_scalar W Probe (url_for W driver) "SELECT 1" (db s))
          as [e|v]; simpl]];
    (eexists; rewrite !add_events_app; split; [reflexivity|]; simpl;
     repeat split; try done;
     try (repeat constructor; auto; by right);
     try (by intros [? ?])).
Qed.

Lemma build_engine_from_cons_ok driver rest last_err s eng s1 :
  try_driver W driver s = (Ok eng, s1) →
  build_engine_from W (driver :: rest) last_err s = (Ok eng, s1).
Proof. intros H. simpl. unfold try_except. by rewrite H. Qed.

Lemma build_engine_from_cons_raise driver rest last_err s e s1 :
  try_driver W driver s = (Raise e, s1) →
  build_engine_from W (driver :: rest) last_err s
  = build_engine_from W rest (Some e)
      (add_events s1 [EPrint (warn_line driver e)]).
Proof. intros H. simpl. unfold try_except. by rewrite H. Qed.

Lemma urls_created_app e1 e2 :
  urls_created (e1 ++ e2) = urls_created e1 ++ urls_created e2.
Proof. unfold urls_created. apply omap_app. Qed.

Lemma printed_app e1 e2 : printed (e1 ++ e2) = printed e1 ++ printed e2.
Proof. unfold printed. apply omap_app. Qed.

(** The loop walks through a prefix of failing candidates, logging each
    failure, and goes on with the rest. *)
Lemma build_engine_from_failing_prefix pre rest last_err s :
  Forall (λ c, is_Some (probe_error W (db s) c)) pre →
  ∃ evs,
    build_engine_from W (pre ++ rest) last_err s
    = build_engine_from W rest (last_err_after W (db s) pre last_err)
        (add_events s evs)
    ∧ urls_created evs = map (url_for W) pre
    ∧ Forall (λ ev, ∀ u, event_url ev = Some u → u ∈ map (url_for W) pre) evs
    ∧ printed evs = concat (map (fail_lines W (db s)) pre).
Proof.
  revert last_err s. induction pre as [|c pre IH]; intros last_err s Hall.
  - exists []. rewrite add_events_nil. by repeat split.
  - apply Forall_cons in Hall as [[e He] Hall].
    destruct (try_driver_run c s) as (ev1 & Hrun & Hurl & Hev & _ & Hpr).
    rewrite He in Hrun.
    destruct (IH (Some e) (add_events (add_events s ev1)
                             [EPrint (warn_line c e)])) as
      (ev2 & Hloop & Hurl2 & Hev2 & Hpr2); [done|].
    exists (ev1 ++ [EPrint (warn_line c e)] ++ ev2).
    split; [|split; [|split]].
    + simpl app. rewrite (build_engine_from_cons_raise _ _ _ _ _ _ Hrun).
      rewrite Hloop. rewrite !add_events_app. simpl db.
      unfold last_err_after. simpl. rewrite He. by rewrite <- app_assoc.
    + rewrite !urls_created_app, Hurl, Hurl2. done.
    + rewrite !Forall_app. split; [|split].
      * eapply Forall_impl; [exact Hev|]. intros ev [H|H] u Hu.
        -- congruence.
        -- rewrite H in Hu. injection Hu as <-. simpl. left.
      * apply Forall_singleton. intros u' Hu. discriminate.
      * eapply Forall_impl; [exact Hev2|]. intros ev H u Hu.
        simpl. right. by apply H.
    + rewrite !printed_app, Hpr2, Hpr by (rewrite He; eauto).
      simpl. unfold fail_lines at 2. by rewrite He.
Qed.

(** C1. For every ordered list of candidate drivers, if the candidate at
    position [k] is the first whose probe (engine, connection, SELECT 1)
    succeeds, the loop of build_engine returns the engine configured for
    that candidate; the URLs it constructs are exactly those of
    candidates 0..k, in order, no library call refers to any other
    candidate, and the last line printed reports the chosen driver. *)
Theorem build_engine_first_success (cands : list string) (k : nat)
    (driver : string) (last_err : option exn) (s : state) :
  cands !! k = Some driver →
  probe_error W (db s) driver = None →
  (∀ j c, j < k → cands !! j = Some c → is_Some (probe_error W (db s) c)) →
  ∃ evs,
    build_engine_from W cands last_err s
    = (Ok (engine_for W driver), add_events s evs)
    ∧ urls_created evs = map (url_for W) (take (S k) cands)
    ∧ Forall (λ ev, ∀ u, event_url ev = Some u →
                         u ∈ map (url_for W) (take (S k) cands)) evs
    ∧ last evs = Some (EPrint ("[INFO] Using driver: " +:+ driver)).
Proof.
  intros Hk Hok Hbefore.
  assert (Hsplit : cands = take k cands ++ driver :: drop (S k) cands).
  { symmetry. by apply take_drop_middle. }
  assert (Htake : take (S k) cands = take k cands ++ [driver]).
  { by apply take_S_r. }
  assert (Hpre : Forall (λ c, is_Some (probe_error W (db s) c)) (take k cands)).
  { apply Forall_lookup. intros j c Hj.
    apply lookup_take_Some in Hj as [Hj Hlt]. eauto. }
  destruct (build_engine_from_failing_prefix (take k cands)
              (driver :: drop (S k) cands) last_err s Hpre)
    as (ev1 & Hloop & Hurl1 & Hev1 & _).
  destruct (try_driver_run driver (add_events s ev1))
    as (ev2 & Hrun & Hurl2 & Hev2 & Hlast & _).
  simpl db in Hrun, Hlast. rewrite Hok in Hrun.
  exists (ev1 ++ ev2). split; [|split; [|split]].
  - rewrite Hsplit at 1. rewrite Hloop.
    rewrite (build_engine_from_cons_ok _ _ _ _ _ _ Hrun).
    by rewrite add_events_app.
  - by rewrite urls_created_app, Hurl1, Hurl2, Htake, map_app.
  - rewrite Htake, map_app. apply Forall_app. split.
    + eapply Forall_impl; [exact Hev1|]. intros ev H u Hu.
      apply elem_of_app. left. by apply H.
    + eapply Forall_impl; [exact Hev2|]. intros ev [H|H] u Hu; [congruence|].
      rewrite H in Hu. injection Hu as <-. apply elem_of_app. right.
      simpl. left.
  - specialize (Hlast Hok). rewrite last_app, Hlast. done.
Qed.

Lemma last_err_after_last d cands last_err c :
  last cands = Some c →
  last_err_after W d cands last_err = probe_error W d c.
Proof.
  intros H. apply last_Some in H as [init ->].
  unfold last_err_after. by rewrite foldl_app.
Qed.

(** C2. If the probe of every candidate fails, the loop of build_engine
    does not return: it raises a RuntimeError whose message ends with the
    text of the error of the last candidate.  Every candidate's failure
    is printed as a [WARN] line (nothing is raised before the loop ends),
    and the printed lines are exactly one "Trying" line and one warning
    per candidate, in order. *)
Theorem build_engine_all_fail (cands : list string) (c_last : string)
    (e_last : exn) (last_err : option exn) (s : state) :
  last cands = Some c_last →
  probe_error W (db s) c_last = Some e_last →
  (∀ c, c ∈ cands → is_Some (probe_error W (db s) c)) →
  ∃ evs msg,
    build_engine_from W cands last_err s
    = (Raise (RuntimeError msg), add_events s evs)
    ∧ msg = "No usable ODBC driver found. Last error: " +:+ exn_str e_last
    ∧ str_contains (exn_str e_last) msg
    ∧ printed evs = concat (map (fail_lines W (db s)) cands)
    ∧ (∀ c e, c ∈ cands → probe_error W (db s) c = Some e →
              warn_line c e ∈ printed evs).
Proof.
  intros Hlast Helast Hall.
  destruct (build_engine_from_failing_prefix cands [] last_err s)
    as (evs & Hloop & _ & _ & Hpr).
  { by apply Forall_forall. }
  rewrite app_nil_r in Hloop.
  rewrite (last_err_after_last _ _ _ _ Hlast), Helast in Hloop.
  exists evs, ("No usable ODBC driver found. Last error: " +:+ exn_str e_last).
  split; [exact Hloop|]. split; [done|]. split; [apply str_contains_suffix|].
  split; [exact Hpr|].
  intros c e Hc He. rewrite Hpr. apply list_elem_of_In, in_concat.
  exists (fail_lines W (db s) c). split.
  - apply in_map. by apply list_elem_of_In.
  - unfold fail_lines. rewrite He. right. by left.
Qed.

(** *** Reading *)

Lemma pd_read_csv_run path dt keep enc s :
  pd_read_csv W path dt keep enc s
  = (frame_result W dt keep (csv_tokenize W path enc),
     add_events s [EReadCsv path dt keep enc]).
Proof.
  unfold pd_read_csv, emit, bind, lift_sum, ret, raise.
  by destruct (csv_tokenize W path enc).
Qed.

Lemma read_csv_any_run path s :
  read_csv_any W path s
  = (frame_result W true false (load_outcome W path),
     add_events s (load_events W path)).
Proof.
  unfold read_csv_any, try_except, load_outcome, load_events.
  rewrite pd_read_csv_run.
  destruct (csv_tokenize W path None) as [e|raw]; simpl; [|done].
  destruct (is_UnicodeDecodeError e); [|done].
  by rewrite pd_read_csv_run, add_events_app.
Qed.

Lemma pd_frame_text raw :
  pd_frame W true false raw
  = Frame (pd_labels W (header raw)) (map (map CStr) (records raw)).
Proof. done. Qed.

(** C5. read_csv_any always starts with one read under the default
    encoding.  If that read succeeds its frame is returned and nothing
    else is read.  If it fails with a UnicodeDecodeError, exactly one more
    read is made, with encoding latin-1, and its outcome (frame or
    error) is the outcome of the call.  If it fails with any other
    error, there is no retry and that error propagates. *)
Theorem read_csv_any_fallback (path : string) (s : state) :
  match csv_tokenize W path None with
  | inr raw =>
      read_csv_any W path s
      = (Ok (pd_frame W true false raw),
         add_events s [EReadCsv path true false None])
  | inl e =>
      if is_UnicodeDecodeError e then
        read_csv_any W path s
        = (match csv_tokenize W path (Some "latin-1") with
           | inr raw => Ok (pd_frame W true false raw)
           | inl e' => Raise e'
           end,
           add_events s [EReadCsv path true false None;
                         EReadCsv path true false (Some "latin-1")])
      else
        read_csv_any W path s
        = (Raise e, add_events s [EReadCsv path true false None])
  end.
Proof.
  rewrite read_csv_any_run. unfold load_outcome, load_events.
  destruct (csv_tokenize W path None) as [e|raw]; [|done].
  destruct (is_UnicodeDecodeError e); [|done].
  by destruct (csv_tokenize W path (Some "latin-1")).
Qed.

(** *** Writing *)

Lemma to_sql_replace_run df name eng s :
  let u := eng_url eng in
  let key := qualified "dbo" name in
  let ev := EToSql name "dbo" IfReplace false df u in
  to_sql W df name eng "dbo" IfReplace false s
  = match to_sql_err W u name "dbo" df with
    | None =>
        (Ok tt, write_state s ev (<[key := frame_to_table false df]> (db s)))
    | Some e =>
        (Raise e,
         write_state s ev
           (match to_sql_leaves W u key df (db s !! key) with
            | Some t => <[key := t]> (db s)
            | None => delete key (db s)
            end))
    end.
Proof.
  unfold to_sql, emit, bind, get_db, set_db, raise, write_state. simpl.
  by destruct (to_sql_err W (eng_url eng) name "dbo" df).
Qed.

Lemma frame_to_table_lowered raw :
  frame_to_table false (lowered_frame W raw) = written_table W raw.
Proof.
  unfold frame_to_table, lowered_frame, written_table. simpl. f_equal.
  rewrite (imap_ext _ (const (map sql_of_cell))) by done.
  rewrite imap_const, <- list_fmap_compose. apply list_fmap_ext.
  intros i r _. simpl. by rewrite <- list_fmap_compose.
Qed.

(** *** The two ingestion blocks of main *)

Lemma main_ingest_brand_block eng :
  main_ingest_brand W eng = ingest_block W "brand" (BRAND_CSV W) "brand" eng.
Proof. reflexivity. Qed.

Lemma main_ingest_spend_block eng :
  main_ingest_spend W eng
  = ingest_block W "spend" (SPEND_CSV W) "daily_spend" eng.
Proof. reflexivity. Qed.

Lemma ensure_exists_run path s :
  ensure_exists W path s
  = match path_exists W path with
    | inl e => (Raise e, add_events s [EPathExists path])
    | inr b =>
        (Ok b,
         add_events s (EPathExists path ::
                       if b then [] else [EPrint (missing_warning W path)]))
    end.
Proof.
  unfold ensure_exists, Path_exists, bind, emit, ret, print, emit, lift_sum,
    raise.
  destruct (path_exists W path) as [e|[]]; simpl; [done..|].
  by rewrite add_events_app.
Qed.

Lemma ensure_exists_answers path s b :
  path_exists W path = inr b →
  ensure_exists W path s
  = (Ok b,
     add_events s (EPathExists path ::
                   if b then [] else [EPrint (missing_warning W path)])).
Proof. intros H. by rewrite ensure_exists_run, H. Qed.

Lemma ingest_block_check_fails label path name eng s e :
  path_exists W path = inl e →
  ingest_block W label path name eng s
  = (Raise e, add_events s [EPathExists path]).
Proof.
  intros H. unfold ingest_block.
  erewrite bind_Raise; [done|]. by rewrite ensure_exists_run, H.
Qed.

Lemma ingest_block_missing label path name eng s :
  path_exists W path = inr false →
  ingest_block W label path name eng s
  = (Ok tt, add_events s [EPathExists path; EPrint (missing_warning W path)]).
Proof.
  intros H. unfold ingest_block.
  by rewrite (bind_Ok _ _ _ _ _ (ensure_exists_answers path s false H)).
Qed.

Lemma ingest_block_read_fails label path name eng s e :
  path_exists W path = inr true →
  load_outcome W path = inl e →
  ingest_block W label path name eng s
  = (Raise e, add_events s (read_phase W label path)).
Proof.
  intros H He. unfold ingest_block.
  rewrite (bind_Ok _ _ _ _ _ (ensure_exists_answers path s true H)).
  unfold print, emit, bind at 1. simpl.
  erewrite bind_Raise; [|rewrite read_csv_any_run, He; reflexivity].
  by rewrite !add_events_app.
Qed.

Lemma ingest_block_loaded label path name eng s raw :
  path_exists W path = inr true →
  load_outcome W path = inr raw →
  let u := eng_url eng in
  let key := qualified "dbo" name in
  ingest_block W label path name eng s
  = match to_sql_err W u name "dbo" (lowered_frame W raw) with
    | None =>
        (Ok tt,
         State (trace s ++ write_phase W label path name eng raw)
               (<[key := written_table W raw]> (db s)))
    | Some e =>
        (Raise e,
         State (trace s ++ write_phase W label path name eng raw)
           (match to_sql_leaves W u key (lowered_frame W raw) (db s !! key) with
            | Some t => <[key := t]> (db s)
            | None => delete key (db s)
            end))
    end.
Proof.
  intros H Hraw u key. unfold ingest_block.
  rewrite (bind_Ok _ _ _ _ _ (ensure_exists_answers path s true H)).
  unfold print, emit, bind at 1. simpl.
  erewrite bind_Ok; [|rewrite read_csv_any_run, Hraw; reflexivity].
  unfold bind at 1. simpl.
  rewrite pd_frame_text. unfold set_columns. simpl.
  fold (lowered_frame W raw). rewrite to_sql_replace_run.
  rewrite frame_to_table_lowered. unfold write_state, write_phase, read_phase.
  rewrite !add_events_app. simpl.
  fold u. fold key.
  destruct (to_sql_err W u name "dbo" (lowered_frame W raw));
    rewrite <- app_assoc; simpl; by rewrite <- app_assoc.
Qed.

(** *** The connection phase (lines 77-83) *)

Lemma try_driver_events driver s :
  ∃ evs, (try_driver W driver s).2 = add_events s evs
         ∧ Forall (λ ev, is_connection_event ev = true) evs.
Proof.
  unfold try_driver, URL_create, create_engine, connect,
    exec_driver_sql, print, emit, bind, ret, lift_err, lift_sum, get_db, raise.
  simpl.
  destruct (create_engine_err W _) as [e|]; simpl;
    [|destruct (connect_err W Probe _) as [e|]; simpl;
      [|destruct (exec_scalar W Probe _ "SELECT 1" (db s)) as [e|v]; simpl]];
    (eexists; rewrite !add_events_app; split; [reflexivity|];
     by repeat constructor).
Qed.

Lemma build_engine_from_events cands last_err s :
  ∃ evs, (build_engine_from W cands last_err s).2 = add_events s evs
         ∧ Forall (λ ev, is_connection_event ev = true) evs.
Proof.
  revert last_err s. induction cands as [|c cands IH]; intros last_err s.
  - exists []. by rewrite add_events_nil.
  - destruct (try_driver_events c s) as (ev1 & H1 & Hev1).
    simpl. unfold try_except.
    destruct (try_driver W c s) as [[eng|e] s1] eqn:Hrun; simpl in H1; subst s1.
    + by exists ev1.
    + simpl. unfold bind, print, emit. simpl.
      destruct (IH (Some e) (add_events (add_events s ev1)
                  [EPrint ("[WARN] Driver failed: " +:+ c +:+ " -> "
                           +:+ exn_type e +:+ ": " +:+ exn_str e)]))
        as (ev2 & H2 & Hev2).
      eexists. rewrite H2, !add_events_app. split; [reflexivity|].
      rewrite !Forall_app. repeat split; try done. by repeat constructor.
Qed.

Lemma main_smoke_test_events eng s :
  ∃ evs, (main_smoke_test W eng s).2 = add_events s evs
         ∧ Forall (λ ev, is_connection_event ev = true) evs.
Proof.
  unfold main_smoke_test, connect, execute_scalar, print, emit, bind, ret,
    lift_err, lift_sum, get_db, raise. simpl.
  destruct (connect_err W Smoke _) as [e|]; simpl;
    [|destruct (exec_scalar W Smoke _ "SELECT @@VERSION" (db s)) as [e|v];
      simpl];
    (eexists; rewrite ?add_events_app; split; [reflexivity|];
     by repeat constructor).
Qed.

Lemma main_connected s0 eng s2 :
  connected W s0 eng s2 →
  main W s0
  = (main_ingest_brand W eng ;;;
     main_ingest_spend W eng ;;;
     main_sanity_counts W eng ;;;
     print "[DONE] Ingestion complete.") s2.
Proof.
  intros (s1 & Hb & Hs). unfold main.
  unfold bind at 1. unfold print at 1, emit. simpl.
  rewrite (bind_Ok _ _ _ _ _ Hb). by rewrite (bind_Ok _ _ _ _ _ Hs).
Qed.

Lemma connected_events s0 eng s2 :
  connected W s0 eng s2 →
  ∃ evs, s2 = add_events s0 evs
         ∧ Forall (λ ev, is_connection_event ev = true) evs.
Proof.
  intros (s1 & Hb & Hs).
  destruct (build_engine_from_events candidates None
              (add_events s0 [EPrint "[INFO] Connecting to Azure SQL..."]))
    as (ev1 & H1 & Hev1).
  destruct (main_smoke_test_events eng s1) as (ev2 & H2 & Hev2).
  unfold build_engine in Hb. rewrite Hb in H1. rewrite Hs in H2.
  simpl in H1, H2. subst s1 s2.
  eexists. rewrite !add_events_app. split; [reflexivity|].
  rewrite !Forall_app. repeat split; try done. by repeat constructor.
Qed.

(** *** The sanity counts (lines 101-107) *)

Lemma count_turn_run eng t s :
  try_except
    (cnt <- execute_scalar W (Conn Verify eng) (count_sql t) ;;
     print (count_line t cnt))
    except_Exception (λ _, ret tt) s
  = (Ok tt, add_events s (count_events W eng (db s) t)).
Proof.
  unfold try_except, execute_scalar, count_events, print, emit, bind, ret,
    lift_sum, get_db, raise. simpl.
  destruct (exec_scalar W Verify (eng_url eng) (count_sql t) (db s));
    simpl; by rewrite ?add_events_app.
Qed.

Lemma connect_run site eng s :
  connect W site eng s
  = (match connect_err W site (eng_url eng) with
     | None => Ok (Conn site eng)
     | Some e => Raise e
     end, add_events s [EConnect site (eng_url eng)]).
Proof.
  unfold connect, emit, bind, ret, lift_err, raise. simpl.
  by destruct (connect_err W site (eng_url eng)).
Qed.

Lemma main_sanity_counts_run eng s :
  main_sanity_counts W eng s
  = match connect_err W Verify (eng_url eng) with
    | None => (Ok tt, add_events s (sanity_events W eng (db s)))
    | Some e => (Raise e, add_events s [EConnect Verify (eng_url eng)])
    end.
Proof.
  unfold main_sanity_counts.
  destruct (connect_err W Verify (eng_url eng)) as [e|] eqn:Hc.
  - erewrite bind_Raise; [done|]. by rewrite connect_run, Hc.
  - erewrite bind_Ok; [|by rewrite connect_run, Hc].
    cbn [for_in].
    erewrite bind_Ok; [|apply (count_turn_run eng "brand")].
    erewrite bind_Ok; [|apply (count_turn_run eng "daily_spend")].
    unfold ret, sanity_events. by rewrite !add_events_app.
Qed.

(** Lines 101-109: the counts and the final line. *)
Lemma sanity_tail_run eng s :
  (main_sanity_counts W eng ;;; print done_line) s
  = match connect_err W Verify (eng_url eng) with
    | None =>
        (Ok tt, add_events s (sanity_events W eng (db s) ++ [EPrint done_line]))
    | Some e => (Raise e, add_events s [EConnect Verify (eng_url eng)])
    end.
Proof.
  unfold bind. rewrite main_sanity_counts_run.
  destruct (connect_err W Verify (eng_url eng)); [done|].
  unfold print, emit. by rewrite add_events_app.
Qed.

Lemma sanity_tail_db eng s :
  db ((main_sanity_counts W eng ;;; print done_line) s).2 = db s.
Proof.
  rewrite sanity_tail_run. by destruct (connect_err W Verify (eng_url eng)).
Qed.

(** *** What a block can touch *)

Lemma load_events_block path name :
  Forall (λ ev, is_block_event path name ev = true) (load_events W path).
Proof.
  unfold load_events.
  destruct (csv_tokenize W path None) as [e|raw];
    [destruct (is_UnicodeDecodeError e)|];
    repeat constructor; simpl; by apply bool_decide_eq_true.
Qed.

Lemma read_phase_block label path name :
  Forall (λ ev, is_block_event path name ev = true) (read_phase W label path).
Proof.
  unfold read_phase. apply Forall_cons_2.
  { simpl. by apply bool_decide_eq_true. }
  apply Forall_cons_2; [done|]. apply load_events_block.
Qed.

(** Whatever its outcome, a block only adds events of its own kind and
    leaves every other destination as it was. *)
Lemma ingest_block_frame label path name eng s :
  ∃ evs,
    trace (ingest_block W label path name eng s).2 = trace s ++ evs
    ∧ Forall (λ ev, is_block_event path name ev = true) evs
    ∧ ∀ k, k ≠ qualified "dbo" name →
           db (ingest_block W label path name eng s).2 !! k = db s !! k.
Proof.
  destruct (path_exists W path) as [e0|[]] eqn:Hex.
  - rewrite (ingest_block_check_fails _ _ _ _ _ _ Hex).
    exists [EPathExists path]. split; [done|]. split; [|done].
    repeat constructor. simpl. by apply bool_decide_eq_true.
  - destruct (load_outcome W path) as [e|raw] eqn:Hload.
    + rewrite (ingest_block_read_fails _ _ _ _ _ _ Hex Hload).
      exists (read_phase W label path). split; [done|]. split; [|done].
      apply read_phase_block.
    + rewrite (ingest_block_loaded _ _ _ _ _ _ Hex Hload).
      exists (write_phase W label path name eng raw).
      assert (Hev : Forall (λ ev, is_block_event path name ev = true)
                      (write_phase W label path name eng raw)).
      { unfold write_phase. apply Forall_app. split.
        - apply read_phase_block.
        - repeat constructor. simpl. by apply bool_decide_eq_true. }
      destruct (to_sql_err W _ name "dbo" _); simpl.
      * split; [done|]. split; [done|]. intros k Hk.
        destruct (to_sql_leaves W _ _ _ _).
        -- by rewrite lookup_insert_ne.
        -- by rewrite lookup_delete_ne.
      * split; [done|]. split; [done|]. intros k Hk.
        by rewrite lookup_insert_ne.
  - rewrite (ingest_block_missing _ _ _ _ _ Hex).
    exists [EPathExists path; EPrint (missing_warning W path)].
    split; [done|]. split; [|done].
    repeat constructor. simpl. by apply bool_decide_eq_true.
Qed.

(** *** Runs of main after the connection phase *)

Lemma main_brand_Ok s0 eng s2 s3 :
  connected W s0 eng s2 →
  main_ingest_brand W eng s2 = (Ok tt, s3) →
  main W s0
  = (main_ingest_spend W eng ;;;
     main_sanity_counts W eng ;;; print done_line) s3.
Proof.
  intros Hc Hb. rewrite (main_connected _ _ _ Hc).
  by rewrite (bind_Ok _ _ _ _ _ Hb).
Qed.

Lemma main_brand_Raise s0 eng s2 e s3 :
  connected W s0 eng s2 →
  main_ingest_brand W eng s2 = (Raise e, s3) →
  main W s0 = (Raise e, s3).
Proof.
  intros Hc Hb. rewrite (main_connected _ _ _ Hc).
  by rewrite (bind_Raise _ _ _ _ _ Hb).
Qed.

Lemma main_spend_Ok s0 eng s2 s3 s4 :
  connected W s0 eng s2 →
  main_ingest_brand W eng s2 = (Ok tt, s3) →
  main_ingest_spend W eng s3 = (Ok tt, s4) →
  main W s0 = (main_sanity_counts W eng ;;; print done_line) s4.
Proof.
  intros Hc Hb Hs. rewrite (main_brand_Ok _ _ _ _ Hc Hb).
  by rewrite (bind_Ok _ _ _ _ _ Hs).
Qed.

Lemma main_spend_Raise s0 eng s2 s3 e s4 :
  connected W s0 eng s2 →
  main_ingest_brand W eng s2 = (Ok tt, s3) →
  main_ingest_spend W eng s3 = (Raise e, s4) →
  main W s0 = (Raise e, s4).
Proof.
  intros Hc Hb Hs. rewrite (main_brand_Ok _ _ _ _ Hc Hb).
  by rewrite (bind_Raise _ _ _ _ _ Hs).
Qed.

(** From the spend block on, nothing touches a destination other than
    [dbo.daily_spend]. *)
Lemma spend_tail_db eng s3 k :
  k ≠ "dbo.daily_spend" →
  db ((main_ingest_spend W eng ;;;
       main_sanity_counts W eng ;;; print done_line) s3).2 !! k
  = db s3 !! k.
Proof.
  intros Hk. unfold bind at 1.
  destruct (ingest_block_frame "spend" (SPEND_CSV W) "daily_spend" eng s3)
    as (evs & _ & _ & Hdb).
  rewrite <- main_ingest_spend_block in Hdb.
  destruct (main_ingest_spend W eng s3) as [[[]|e] s4]; simpl in Hdb.
  - rewrite sanity_tail_db. by apply Hdb.
  - by apply Hdb.
Qed.

(** The destination of the brand block after a run that loaded and wrote
    the brand source. *)
Lemma main_brand_table s0 eng s2 raw :
  connected W s0 eng s2 →
  loaded_and_written W eng (BRAND_CSV W) "brand" raw →
  db (main W s0).2 !! "dbo.brand" = Some (written_table W raw).
Proof.
  intros Hc (Hex & Hload & Hw).
  pose proof (ingest_block_loaded "brand" _ "brand" eng s2 raw Hex Hload) as Hb.
  simpl in Hb. rewrite Hw, <- main_ingest_brand_block in Hb.
  rewrite (main_brand_Ok _ _ _ _ Hc Hb), spend_tail_db by done.
  apply lookup_insert_eq.
Qed.

(** The same for the spend block, once the brand block has returned. *)
Lemma main_spend_table s0 eng s2 s3 raw :
  connected W s0 eng s2 →
  main_ingest_brand W eng s2 = (Ok tt, s3) →
  loaded_and_written W eng (SPEND_CSV W) "daily_spend" raw →
  db (main W s0).2 !! "dbo.daily_spend" = Some (written_table W raw).
Proof.
  intros Hc Hb (Hex & Hload & Hw).
  pose proof (ingest_block_loaded "spend" _ "daily_spend" eng s3 raw Hex Hload)
    as Hs.
  simpl in Hs. rewrite Hw, <- main_ingest_spend_block in Hs.
  rewrite (main_spend_Ok _ _ _ _ _ Hc Hb Hs), sanity_tail_db.
  apply lookup_insert_eq.
Qed.

(** C3. In every run of main that gets through the connection phase,
    whatever the database held before: if the brand source is loaded and
    written, [dbo.brand] afterwards holds exactly the rows of that CSV
    (same number, same order, same fields), and likewise for
    [dbo.daily_spend] and the spend source once the brand block has
    returned.  Nothing of the previous contents of the destination
    remains. *)
Theorem main_replaces_destination (s0 : state) (eng : engine) (s2 : state) :
  connected W s0 eng s2 →
  (∀ raw,
      loaded_and_written W eng (BRAND_CSV W) "brand" raw →
      ∃ t, db (main W s0).2 !! "dbo.brand" = Some t
           ∧ trows t = map (map VText) (records raw)
           ∧ length (trows t) = length (records raw))
  ∧ (∀ raw s3,
      main_ingest_brand W eng s2 = (Ok tt, s3) →
      loaded_and_written W eng (SPEND_CSV W) "daily_spend" raw →
      ∃ t, db (main W s0).2 !! "dbo.daily_spend" = Some t
           ∧ trows t = map (map VText) (records raw)
           ∧ length (trows t) = length (records raw)).
Proof.
  intros Hc. split.
  - intros raw Hlw. exists (written_table W raw).
    split; [by eapply main_brand_table|]. split; [done|].
    simpl. by rewrite length_map.
  - intros raw s3 Hb Hlw. exists (written_table W raw).
    split; [by eapply main_spend_table|]. split; [done|].
    simpl. by rewrite length_map.
Qed.

Lemma lower_from_ascii whole i rest :
  is_ascii_str rest = true → lower_from W whole i rest = ascii_str_lower rest.
Proof.
  revert i. induction rest as [|c r IH]; intros i H; [done|].
  simpl in H. apply andb_prop in H as [Hc Hr].
  simpl. rewrite Hc, (IH _ Hr). done.
Qed.

(** On a string that is pure ASCII, [str.lower()] is the ASCII lowering. *)
Lemma py_lower_ascii s :
  is_ascii_str s = true → py_lower W s = ascii_str_lower s.
Proof. apply lower_from_ascii. Qed.

Lemma ascii_lower_not_upper c : is_ascii_upper (ascii_lower c) = false.
Proof. by destruct c as [[] [] [] [] [] [] [] []]. Qed.

Lemma ascii_str_lower_no_upper s : no_ascii_upper (ascii_str_lower s) = true.
Proof.
  induction s as [|c r IH]; [done|]. simpl.
  by rewrite ascii_lower_not_upper, IH.
Qed.

Lemma pd_labels_clean cells :
  NoDup cells → "" ∉ cells → pd_labels W cells = cells.
Proof. intros H1 H2. unfold pd_labels. by rewrite decide_True. Qed.

Lemma written_table_columns raw :
  lowered_columns W raw (tcols (written_table W raw)).
Proof.
  unfold lowered_columns. simpl.
  assert (Hset : ∀ c, c ∈ map (py_lower W) (pd_labels W (header raw))
                      ↔ ∃ l, l ∈ pd_labels W (header raw) ∧ c = py_lower W l).
  { intros c. rewrite list_elem_of_fmap.
    split; intros (h & H1 & H2); eauto. }
  split; [done|]. split; [exact Hset|]. split.
  - intros Hnd Hne c. rewrite Hset. by rewrite pd_labels_clean.
  - apply Forall2_fmap_r, Forall_Forall2_diag, Forall_true.
    intros l Hl. rewrite (py_lower_ascii _ Hl).
    split; [done | apply ascii_str_lower_no_upper].
Qed.

(** C4. In every such run, for [dbo.brand] and for [dbo.daily_spend],
    the columns of the table written for a source are the lowercase
    (Python's [str.lower()]) of the labels of the loaded frame, in
    order, and as a set.  The labels are the cells of the header row
    when no cell is empty and none is repeated, and then the column set
    is the set of the lowercase forms of the header cells.  The
    lowercase of a label that is pure ASCII is the label with [A-Z]
    turned into [a-z]: it holds no capital letter. *)
Theorem main_columns_lowercase (s0 : state) (eng : engine) (s2 : state) :
  connected W s0 eng s2 →
  (∀ raw,
      loaded_and_written W eng (BRAND_CSV W) "brand" raw →
      ∃ t, db (main W s0).2 !! "dbo.brand" = Some t
           ∧ lowered_columns W raw (tcols t))
  ∧ (∀ raw s3,
      main_ingest_brand W eng s2 = (Ok tt, s3) →
      loaded_and_written W eng (SPEND_CSV W) "daily_spend" raw →
      ∃ t, db (main W s0).2 !! "dbo.daily_spend" = Some t
           ∧ lowered_columns W raw (tcols t)).
Proof.
  intros Hc. split.
  - intros raw Hlw. exists (written_table W raw).
    split; [by eapply main_brand_table|]. apply written_table_columns.
  - intros raw s3 Hb Hlw. exists (written_table W raw).
    split; [by eapply main_spend_table|]. apply written_table_columns.
Qed.

Lemma missing_warning_names_path path :
  str_contains (path_str W path) (missing_warning W path).
Proof. by eexists _, _. Qed.

Lemma missing_warning_names_env path :
  str_contains "Set BRAND_CSV/SPEND_CSV env vars" (missing_warning W path).
Proof.
  exists ("[WARN] File not found: " +:+ path_str W path +:+ ". "),
         " if paths differ.".
  unfold missing_warning. by rewrite !str_app_assoc.
Qed.

(** C6. In a run that got through the connection phase:
    - if the existence check of the brand CSV answers False, the brand
      block returns normally after exactly two events, the check and a
      [WARN] line that names the path and the BRAND_CSV/SPEND_CSV
      variables; nothing is read or written and the database is
      untouched; main goes on with the spend block, and a spend source
      that loads and writes ends up in [dbo.daily_spend];
    - if the existence check of the spend CSV answers False (the brand
      block having returned), the same holds for the spend block; main
      goes on with the counts, and a brand source that loads and writes
      is in [dbo.brand];
    - if the existence check of either path raises, main raises that
      exception right after the check: no [WARN] line, no further block,
      no counts. *)
Theorem missing_source_is_skipped (s0 : state) (eng : engine) (s2 : state) :
  connected W s0 eng s2 →
  (path_exists W (BRAND_CSV W) = inr false →
   let s3 := add_events s2 [EPathExists (BRAND_CSV W);
                            EPrint (missing_warning W (BRAND_CSV W))] in
   main_ingest_brand W eng s2 = (Ok tt, s3)
   ∧ str_contains (path_str W (BRAND_CSV W)) (missing_warning W (BRAND_CSV W))
   ∧ str_contains "Set BRAND_CSV/SPEND_CSV env vars"
       (missing_warning W (BRAND_CSV W))
   ∧ main W s0
     = (main_ingest_spend W eng ;;;
        main_sanity_counts W eng ;;; print done_line) s3
   ∧ ∀ raw,
       loaded_and_written W eng (SPEND_CSV W) "daily_spend" raw →
       main_ingest_spend W eng s3
       = (Ok tt,
          State (trace s3
                 ++ write_phase W "spend" (SPEND_CSV W) "daily_spend" eng raw)
                (<["dbo.daily_spend" := written_table W raw]> (db s3)))
       ∧ db (main W s0).2 !! "dbo.daily_spend" = Some (written_table W raw))
  ∧ (∀ s3,
       main_ingest_brand W eng s2 = (Ok tt, s3) →
       path_exists W (SPEND_CSV W) = inr false →
       let s4 := add_events s3 [EPathExists (SPEND_CSV W);
                                EPrint (missing_warning W (SPEND_CSV W))] in
       main_ingest_spend W eng s3 = (Ok tt, s4)
       ∧ str_contains (path_str W (SPEND_CSV W))
           (missing_warning W (SPEND_CSV W))
       ∧ str_contains "Set BRAND_CSV/SPEND_CSV env vars"
           (missing_warning W (SPEND_CSV W))
       ∧ main W s0 = (main_sanity_counts W eng ;;; print done_line) s4
       ∧ ∀ raw,
           loaded_and_written W eng (BRAND_CSV W) "brand" raw →
           db (main W s0).2 !! "dbo.brand" = Some (written_table W raw))
  ∧ (∀ e,
       path_exists W (BRAND_CSV W) = inl e →
       main W s0 = (Raise e, add_events s2 [EPathExists (BRAND_CSV W)]))
  ∧ (∀ s3 e,
       main_ingest_brand W eng s2 = (Ok tt, s3) →
       path_exists W (SPEND_CSV W) = inl e →
       main W s0 = (Raise e, add_events s3 [EPathExists (SPEND_CSV W)])).
Proof.
  intros Hc. split; [|split; [|split]].
  3:{ intros e Hex. apply (main_brand_Raise _ _ _ _ _ Hc).
      rewrite main_ingest_brand_block. by apply ingest_block_check_fails. }
  3:{ intros s3 e Hb Hex. apply (main_spend_Raise _ _ _ _ _ _ Hc Hb).
      rewrite main_ingest_spend_block. by apply ingest_block_check_fails. }
  - intros Hex s3.
    assert (Hb : main_ingest_brand W eng s2 = (Ok tt, s3)).
    { rewrite main_ingest_brand_block. by apply ingest_block_missing. }
    split; [exact Hb|]. split; [apply missing_warning_names_path|].
    split; [apply missing_warning_names_env|].
    split; [by eapply main_brand_Ok|].
    intros raw Hlw. split; [|by eapply main_spend_table].
    destruct Hlw as (Hex' & Hload & Hw).
    rewrite main_ingest_spend_block.
    rewrite (ingest_block_loaded _ _ _ _ _ _ Hex' Hload). simpl.
    by rewrite Hw.
  - intros s3 Hb Hex s4.
    assert (Hs : main_ingest_spend W eng s3 = (Ok tt, s4)).
    { rewrite main_ingest_spend_block. by apply ingest_block_missing. }
    split; [exact Hs|]. split; [apply missing_warning_names_path|].
    split; [apply missing_warning_names_env|].
    split; [by eapply main_spend_Ok|].
    intros raw Hlw. by eapply main_brand_table.
Qed.

(** C7. In a run that has reached line 101:
    - if the connection for the counts opens, main returns normally
      whatever the two count queries do: it issues the query for [brand]
      and then the query for [daily_spend]; a query that answers is
      followed by its [OK] line, a query that raises is followed by
      nothing; the run ends with the [DONE] line and the database is not
      changed;
    - if that connection does not open, main raises its error: the
      [with eng.connect()] of line 101 is outside the [try], no count is
      asked for and no [DONE] line is printed. *)
Theorem sanity_counts_never_abort (s0 : state) (eng : engine)
    (s2 s3 s4 : state) :
  connected W s0 eng s2 →
  main_ingest_brand W eng s2 = (Ok tt, s3) →
  main_ingest_spend W eng s3 = (Ok tt, s4) →
  (connect_err W Verify (eng_url eng) = None →
   let turn t :=
     EExecute Verify (eng_url eng) (count_sql t)
     :: match exec_scalar W Verify (eng_url eng) (count_sql t) (db s4) with
        | inr cnt => [EPrint (count_line t cnt)]
        | inl _ => []
        end in
   main W s0
   = (Ok tt,
      add_events s4 (EConnect Verify (eng_url eng)
                     :: turn "brand" ++ turn "daily_spend"
                     ++ [EPrint done_line]))
   ∧ db (main W s0).2 = db s4)
  ∧ (∀ e,
       connect_err W Verify (eng_url eng) = Some e →
       main W s0 = (Raise e, add_events s4 [EConnect Verify (eng_url eng)])).
Proof.
  intros Hc Hb Hs.
  rewrite (main_spend_Ok _ _ _ _ _ Hc Hb Hs), sanity_tail_run.
  split.
  - intros Hv turn. rewrite Hv.
    split; [|done]. unfold sanity_events, count_events. simpl.
    by rewrite <- app_assoc.
  - intros e Hv. by rewrite Hv.
Qed.

(** *** Text only *)

Lemma load_events_flags path :
  Forall (λ ev, ∃ enc, ev = EReadCsv path true false enc) (load_events W path).
Proof.
  unfold load_events.
  destruct (csv_tokenize W path None) as [e|raw];
    [destruct (is_UnicodeDecodeError e)|];
    repeat constructor; eauto.
Qed.

Lemma lookup_field {A B} (f : A → B) (recs : list (list A)) i j :
  (map (map f) recs !! i) ≫= (λ r, r !! j)
  = f <$> ((recs !! i) ≫= (λ r, r !! j)).
Proof.
  rewrite list_lookup_fmap. destruct (recs !! i) as [r|]; simpl; [|done].
  apply list_lookup_fmap.
Qed.

(** C8. When read_csv_any returns a frame, every read it issued asked
    for [dtype=str] and [keep_default_na=False], and the frame holds, at
    every row and column, the text of the field as tokenized: no NaN, no
    number.  The table that to_sql builds from it (index off, columns
    lowercased) holds the same text at the same place; so an empty field
    is the empty string in the frame and in the table. *)
Theorem read_csv_any_keeps_text (path : string) (s : state)
    (df : DataFrame) (s1 : state) :
  read_csv_any W path s = (Ok df, s1) →
  let written :=
    frame_to_table false
      (set_columns df (map (py_lower W) (columns df))) in
  ∃ raw evs,
    load_outcome W path = inr raw
    ∧ s1 = add_events s evs
    ∧ Forall (λ ev, ∃ enc, ev = EReadCsv path true false enc) evs
    ∧ rows df = map (map CStr) (records raw)
    ∧ trows written = map (map VText) (records raw)
    ∧ ∀ i j txt,
        (records raw !! i) ≫= (λ r, r !! j) = Some txt →
        (rows df !! i) ≫= (λ r, r !! j) = Some (CStr txt)
        ∧ (trows written !! i) ≫= (λ r, r !! j) = Some (VText txt).
Proof.
  rewrite read_csv_any_run. intros H written.
  destruct (load_outcome W path) as [e|raw] eqn:Hload; simpl in H; [done|].
  injection H as <- <-. exists raw, (load_events W path).
  assert (Hw : trows written = map (map VText) (records raw)).
  { unfold written. rewrite pd_frame_text. unfold set_columns. simpl columns.
    simpl rows. fold (lowered_frame W raw). by rewrite frame_to_table_lowered. }
  split; [done|]. split; [done|]. split; [apply load_events_flags|].
  split; [done|]. split; [exact Hw|].
  intros i j txt Hf. rewrite Hw, pd_frame_text. simpl rows.
  by rewrite !lookup_field, Hf.
Qed.

(** *** A failed load *)

Lemma connection_event_kinds ev :
  is_connection_event ev = true →
  is_to_sql ev = false ∧ is_verify ev = false
  ∧ is_path_check ev = false ∧ is_read_csv ev = false.
Proof. by destruct ev as [| | |[]|[]|[]| | |]. Qed.

Lemma filter_path_check_connection evs :
  Forall (λ ev, is_connection_event ev = true) evs →
  List.filter is_path_check evs = [].
Proof.
  induction 1 as [|ev evs Hev _ IH]; [done|]. simpl.
  apply connection_event_kinds in Hev as (_ & _ & -> & _). exact IH.
Qed.

Lemma filter_path_check_load path :
  List.filter is_path_check (load_events W path) = [].
Proof.
  unfold load_events.
  by destruct (csv_tokenize W path None) as [e|raw];
    [destruct (is_UnicodeDecodeError e)|].
Qed.

Lemma last_load_events path :
  ∃ enc, last (load_events W path) = Some (EReadCsv path true false enc).
Proof.
  unfold load_events.
  destruct (csv_tokenize W path None) as [e|raw];
    [destruct (is_UnicodeDecodeError e)|]; eauto.
Qed.

(** C9. In a run that got through the connection phase, if the brand CSV
    exists and loading it raises [e], then main raises [e] and the run
    consists of the connection phase followed by the brand existence
    check, the "Reading" line and the read(s) of the brand path, the
    failing read being the last event.  No to_sql is issued, no event of
    the verification step occurs, the only existence check is the one of
    the brand path (the spend source is neither checked nor read), and
    the database is as before the run. *)
Theorem brand_load_failure_aborts_run (s0 : state) (eng : engine)
    (s2 : state) (e : exn) :
  connected W s0 eng s2 →
  path_exists W (BRAND_CSV W) = inr true →
  load_outcome W (BRAND_CSV W) = inl e →
  ∃ evs0,
    let evs := evs0 ++ read_phase W "brand" (BRAND_CSV W) in
    main W s0 = (Raise e, add_events s0 evs)
    ∧ Forall (λ ev, is_connection_event ev = true) evs0
    ∧ Forall (λ ev, is_to_sql ev = false ∧ is_verify ev = false) evs
    ∧ List.filter is_path_check evs = [EPathExists (BRAND_CSV W)]
    ∧ Forall (λ ev, is_read_csv ev = true →
                    ∃ enc, ev = EReadCsv (BRAND_CSV W) true false enc) evs
    ∧ (∃ enc, last evs = Some (EReadCsv (BRAND_CSV W) true false enc))
    ∧ db (main W s0).2 = db s0.
Proof.
  intros Hc Hex Hload.
  destruct (connected_events _ _ _ Hc) as (evs0 & -> & Hev0).
  pose proof (ingest_block_read_fails "brand" _ "brand" eng
                (add_events s0 evs0) e Hex Hload) as Hb.
  rewrite <- main_ingest_brand_block in Hb.
  exists evs0. intros evs.
  rewrite (main_brand_Raise _ _ _ _ _ Hc Hb), add_events_app.
  split; [done|]. split; [done|].
  assert (Hload_ev := load_events_flags (BRAND_CSV W)).
  split; [|split; [|split; [|split]]].
  - apply Forall_app. split.
    + eapply Forall_impl; [exact Hev0|]. intros ev Hev.
      by apply connection_event_kinds in Hev as (? & ? & _).
    + unfold read_phase. do 2 (apply Forall_cons_2; [done|]).
      eapply Forall_impl; [exact Hload_ev|]. by intros ev [enc ->].
  - unfold evs, read_phase.
    rewrite List.filter_app, filter_path_check_connection by done.
    cbn [List.filter is_path_check app].
    by rewrite filter_path_check_load.
  - apply Forall_app. split.
    + eapply Forall_impl; [exact Hev0|]. intros ev Hev Hr.
      apply connection_event_kinds in Hev as (_ & _ & _ & Hev). congruence.
    + unfold read_phase. do 2 (apply Forall_cons_2; [done|]).
      eapply Forall_impl; [exact Hload_ev|]. by intros ev Hev _.
  - destruct (last_load_events (BRAND_CSV W)) as [enc Hl]. exists enc.
    unfold evs, read_phase. by rewrite last_app, !last_cons, Hl.
  - done.
Qed.

(** *** The trace of a whole run *)

Lemma count_events_sanity eng d t :
  Forall (λ ev, is_sanity_event ev = true) (count_events W eng d t).
Proof.
  unfold count_events.
  destruct (exec_scalar W Verify _ _ d); by repeat constructor.
Qed.

Lemma sanity_tail_events eng s :
  ∃ evs,
    trace ((main_sanity_counts W eng ;;; print done_line) s).2 = trace s ++ evs
    ∧ Forall (λ ev, is_sanity_event ev = true) evs.
Proof.
  rewrite sanity_tail_run.
  destruct (connect_err W Verify (eng_url eng)).
  - eexists. split; [reflexivity|]. by repeat constructor.
  - eexists. split; [reflexivity|]. unfold sanity_events.
    rewrite !Forall_app, Forall_cons, Forall_app.
    repeat split; try done; try apply count_events_sanity.
    by repeat constructor.
Qed.

(** Every run that gets through the connection phase is made of four
    stretches: connection, brand block, spend block, counts. *)
Lemma main_run_trace s0 eng s2 :
  connected W s0 eng s2 →
  ∃ ev0 ev1 ev2 ev3,
    trace (main W s0).2 = trace s0 ++ ev0 ++ ev1 ++ ev2 ++ ev3
    ∧ trace (main_ingest_brand W eng s2).2 = trace s2 ++ ev1
    ∧ (ev2 = [] ∨ ∃ s3, main_ingest_brand W eng s2 = (Ok tt, s3)
                        ∧ trace (main_ingest_spend W eng s3).2
                          = trace s3 ++ ev2)
    ∧ Forall (λ ev, is_connection_event ev = true) ev0
    ∧ Forall (λ ev, is_block_event (BRAND_CSV W) "brand" ev = true) ev1
    ∧ Forall (λ ev, is_block_event (SPEND_CSV W) "daily_spend" ev = true) ev2
    ∧ Forall (λ ev, is_sanity_event ev = true) ev3.
Proof.
  intros Hc.
  destruct (connected_events _ _ _ Hc) as (ev0 & Hs2 & Hev0).
  destruct (ingest_block_frame "brand" (BRAND_CSV W) "brand" eng s2)
    as (ev1 & Ht1 & Hev1 & _).
  rewrite <- main_ingest_brand_block in Ht1.
  assert (Ht2 : trace s2 = trace s0 ++ ev0) by by rewrite Hs2.
  destruct (main_ingest_brand W eng s2) as [[[]|e] s3] eqn:Hb; simpl in Ht1.
  - destruct (ingest_block_frame "spend" (SPEND_CSV W) "daily_spend" eng s3)
      as (ev2 & Ht3 & Hev2 & _).
    rewrite <- main_ingest_spend_block in Ht3.
    assert (Hreach : ev2 = [] ∨ ∃ s3', (Ok tt, s3) = (Ok tt, s3')
              ∧ trace (main_ingest_spend W eng s3').2 = trace s3' ++ ev2).
    { right. by exists s3. }
    destruct (main_ingest_spend W eng s3) as [[[]|e] s4] eqn:Hs; simpl in Ht3.
    + destruct (sanity_tail_events eng s4) as (ev3 & Ht4 & Hev3).
      exists ev0, ev1, ev2, ev3. split; [|done].
      rewrite (main_spend_Ok _ _ _ _ _ Hc Hb Hs), Ht4, Ht3, Ht1, Ht2.
      by rewrite <- !app_assoc.
    + exists ev0, ev1, ev2, []. split; [|done].
      rewrite (main_spend_Raise _ _ _ _ _ _ Hc Hb Hs). simpl.
      rewrite Ht3, Ht1, Ht2. by rewrite app_nil_r, <- !app_assoc.
  - exists ev0, ev1, [], []. split; [|by repeat split; auto].
    rewrite (main_brand_Raise _ _ _ _ _ Hc Hb). simpl.
    rewrite Ht1, Ht2. by rewrite app_nil_r, <- !app_assoc.
Qed.

Lemma block_event_other_write path name other ev :
  name ≠ other →
  is_block_event path name ev = true → is_write_to other ev = false.
Proof.
  intros Hne. destruct ev; simpl; try done.
  intros ->%bool_decide_eq_true. by apply bool_decide_eq_false.
Qed.

Lemma connection_event_no_write name ev :
  is_connection_event ev = true → is_write_to name ev = false.
Proof. by destruct ev. Qed.

Lemma sanity_event_no_write name ev :
  is_sanity_event ev = true → is_write_to name ev = false.
Proof. by destruct ev. Qed.

(** A run that reaches line 101 with an open connection asks for both
    counts and ends with the [DONE] line. *)
Lemma main_completes s0 eng s2 s3 s4 :
  connected W s0 eng s2 →
  main_ingest_brand W eng s2 = (Ok tt, s3) →
  main_ingest_spend W eng s3 = (Ok tt, s4) →
  connect_err W Verify (eng_url eng) = None →
  ∃ evs,
    main W s0 = (Ok tt, add_events s4 evs)
    ∧ EExecute Verify (eng_url eng) (count_sql "brand") ∈ evs
    ∧ EExecute Verify (eng_url eng) (count_sql "daily_spend") ∈ evs
    ∧ last evs = Some (EPrint done_line).
Proof.
  intros Hc Hb Hs Hv.
  exists (sanity_events W eng (db s4) ++ [EPrint done_line]).
  rewrite (main_spend_Ok _ _ _ _ _ Hc Hb Hs), sanity_tail_run, Hv.
  split; [done|]. unfold sanity_events, count_events.
  split; [|split].
  - apply elem_of_app. left. right. apply elem_of_app. left. left.
  - apply elem_of_app. left. right. apply elem_of_app. right. left.
  - apply last_snoc.
Qed.

Lemma connected_db s0 eng s2 : connected W s0 eng s2 → db s2 = db s0.
Proof. intros Hc. by destruct (connected_events _ _ _ Hc) as (? & -> & _). Qed.

(** C10. In a run that got through the connection phase:
    - if the existence check of the brand CSV answers False, no to_sql
      for [brand] is issued in the whole run and [dbo.brand] is
      afterwards what it was before;
    - if the existence check of the spend CSV answers False, no to_sql
      for [daily_spend] is issued and [dbo.daily_spend] is afterwards
      what it was before;
    - in both cases, once both blocks have returned: if the connection
      for the counts opens, main returns normally, the count query is
      issued for [dbo.brand] and for [dbo.daily_spend], and the last
      event is the [DONE] line; if it does not open, main raises its
      error, with no count query and no [DONE] line. *)
Theorem absent_source_destination_untouched (s0 : state) (eng : engine)
    (s2 : state) :
  connected W s0 eng s2 →
  let completes :=
    ∀ s3 s4,
      main_ingest_brand W eng s2 = (Ok tt, s3) →
      main_ingest_spend W eng s3 = (Ok tt, s4) →
      (connect_err W Verify (eng_url eng) = None →
       ∃ evs,
         main W s0 = (Ok tt, add_events s4 evs)
         ∧ EExecute Verify (eng_url eng) (count_sql "brand") ∈ evs
         ∧ EExecute Verify (eng_url eng) (count_sql "daily_spend") ∈ evs
         ∧ last evs = Some (EPrint done_line))
      ∧ (∀ e,
           connect_err W Verify (eng_url eng) = Some e →
           main W s0
           = (Raise e, add_events s4 [EConnect Verify (eng_url eng)])) in
  (path_exists W (BRAND_CSV W) = inr false →
   (∃ evs, trace (main W s0).2 = trace s0 ++ evs
           ∧ Forall (λ ev, is_write_to "brand" ev = false) evs)
   ∧ db (main W s0).2 !! "dbo.brand" = db s0 !! "dbo.brand"
   ∧ completes)
  ∧ (path_exists W (SPEND_CSV W) = inr false →
     (∃ evs, trace (main W s0).2 = trace s0 ++ evs
             ∧ Forall (λ ev, is_write_to "daily_spend" ev = false) evs)
     ∧ db (main W s0).2 !! "dbo.daily_spend" = db s0 !! "dbo.daily_spend"
     ∧ completes).
Proof.
  intros Hc completes.
  assert (Hcompl : completes).
  { intros s3 s4 Hb Hs. split.
    - intros Hv. by eapply main_completes.
    - intros e Hv.
      by rewrite (main_spend_Ok _ _ _ _ _ Hc Hb Hs), sanity_tail_run, Hv. }
  destruct (main_run_trace _ _ _ Hc)
    as (ev0 & ev1 & ev2 & ev3 & Htr & Ht1 & Hreach & Hev0 & Hev1 & Hev2
        & Hev3).
  pose proof (connected_db _ _ _ Hc) as Hdb2.
  split; intros Hex; (split; [|split; [|exact Hcompl]]).
  - (* brand absent: the brand block is the check and the warning *)
    pose proof (ingest_block_missing "brand" _ "brand" eng s2 Hex) as Hb.
    rewrite <- main_ingest_brand_block in Hb.
    rewrite Hb in Ht1. simpl in Ht1. apply app_inv_head in Ht1. subst ev1.
    exists (ev0 ++ [EPathExists (BRAND_CSV W);
                    EPrint (missing_warning W (BRAND_CSV W))] ++ ev2 ++ ev3).
    split; [exact Htr|]. rewrite !Forall_app. repeat split.
    + eapply Forall_impl; [exact Hev0|].
      intros ev. apply connection_event_no_write.
    + by repeat constructor.
    + eapply Forall_impl; [exact Hev2|].
      intros ev. by apply block_event_other_write.
    + eapply Forall_impl; [exact Hev3|].
      intros ev. apply sanity_event_no_write.
  - pose proof (ingest_block_missing "brand" _ "brand" eng s2 Hex) as Hb.
    rewrite <- main_ingest_brand_block in Hb.
    rewrite (main_brand_Ok _ _ _ _ Hc Hb), spend_tail_db by done.
    simpl. by rewrite Hdb2.
  - (* spend absent: the spend block, if reached, is check and warning *)
    exists (ev0 ++ ev1 ++ ev2 ++ ev3). split; [exact Htr|].
    rewrite !Forall_app. repeat split.
    + eapply Forall_impl; [exact Hev0|].
      intros ev. apply connection_event_no_write.
    + eapply Forall_impl; [exact Hev1|].
      intros ev. by apply block_event_other_write.
    + destruct Hreach as [->|(s3 & Hb & Ht2)]; [done|].
      rewrite main_ingest_spend_block in Ht2.
      rewrite (ingest_block_missing _ _ _ _ _ Hex) in Ht2. simpl in Ht2.
      apply app_inv_head in Ht2. subst ev2. by repeat constructor.
    + eapply Forall_impl; [exact Hev3|].
      intros ev. apply sanity_event_no_write.
  - destruct (ingest_block_frame "brand" (BRAND_CSV W) "brand" eng s2)
      as (_ & _ & _ & Hfr).
    rewrite <- main_ingest_brand_block in Hfr.
    rewrite <- Hdb2, <- (Hfr "dbo.daily_spend") by done.
    destruct (main_ingest_brand W eng s2) as [[[]|e] s3] eqn:Hb; simpl.
    + pose proof (ingest_block_missing "spend" _ "daily_spend" eng s3 Hex)
        as Hs.
      rewrite <- main_ingest_spend_block in Hs.
      by rewrite (main_spend_Ok _ _ _ _ _ Hc Hb Hs), sanity_tail_db.
    + by rewrite (main_brand_Raise _ _ _ _ _ Hc Hb).
Qed.

End Facts.

(** *** Runs on the concrete environments *)

Example run_w17_brand_rows :
  db (main Sample.w17 Sample.s_init).2 !! "dbo.brand"
  = Some (Table ["id"; "name"]
            [[VText "1"; VText "Acme"]; [VText "2"; VText "Globex"];
             [VText "3"; VText ""]]).
Proof. vm_compute. reflexivity. Qed.

Example run_w17_printed :
  printed (trace (main Sample.w17 Sample.s_empty).2)
  = [ "[INFO] Connecting to Azure SQL...";
      "[INFO] Trying ODBC driver: ODBC Driver 18 for SQL Server";
      "[WARN] Driver failed: ODBC Driver 18 for SQL Server -> InterfaceError: ('IM002', '[IM002] Data source name not found and no default driver specified')";
      "[INFO] Trying ODBC driver: ODBC Driver 17 for SQL Server";
      "[INFO] Using driver: ODBC Driver 17 for SQL Server";
      "[OK] Connected to SQL Server:" +:+ nl
        +:+ "Microsoft SQL Azure (RTM) - 12.0.2000.8" +:+ nl;
      "[INFO] Reading brand CSV: /hw8/data/brand-detail-url-etc_0_0_0.csv";
      "[INFO] Writing dbo.brand ...";
      "[INFO] Reading spend CSV: /hw8/data/2021-01-19--data_01be88c2-0306-48b3-0042-fa0703282ad6_1304_5_0.csv";
      "[INFO] Writing dbo.daily_spend ...";
      "[OK] brand: 3 rows";
      "[OK] daily_spend: 1 rows";
      "[DONE] Ingestion complete." ].
Proof. vm_compute. reflexivity. Qed.

Example run_w_nobrand_printed :
  printed (trace (main Sample.w_nobrand Sample.s_empty).2)
  = [ "[INFO] Connecting to Azure SQL...";
      "[INFO] Trying ODBC driver: ODBC Driver 18 for SQL Server";
      "[INFO] Using driver: ODBC Driver 18 for SQL Server";
      "[OK] Connected to SQL Server:" +:+ nl
        +:+ "Microsoft SQL Azure (RTM) - 12.0.2000.8" +:+ nl;
      "[WARN] File not found: /hw8/data/brand-detail-url-etc_0_0_0.csv. Set BRAND_CSV/SPEND_CSV env vars if paths differ.";
      "[INFO] Reading spend CSV: /hw8/data/2021-01-19--data_01be88c2-0306-48b3-0042-fa0703282ad6_1304_5_0.csv";
      "[INFO] Writing dbo.daily_spend ...";
      "[OK] daily_spend: 1 rows";
      "[DONE] Ingestion complete." ].
Proof. vm_compute. reflexivity. Qed.

(** With the defaults of pandas the empty field and the NA strings would
    be lost, and an appending write would keep the old rows. *)
Example default_na_loses_empty (W : world) : pd_cell W true true "" = CNaN.
Proof. reflexivity. Qed.

Example default_na_loses_null (W : world) : pd_cell W true true "NULL" = CNaN.
Proof. reflexivity. Qed.

Example append_would_merge :
  let df := lowered_frame Sample.w17 Sample.brand_csv in
  let eng := engine_for Sample.w17 Sample.driver17 in
  trows <$> db (to_sql Sample.w17 df "brand" eng "dbo" IfAppend false
                  Sample.s_init).2 !! "dbo.brand"
  = Some [[VText "1"; VText "Acme"]; [VText "2"; VText "Globex"];
          [VText "1"; VText "Acme"]; [VText "2"; VText "Globex"];
          [VText "3"; VText ""]].
Proof. vm_compute. reflexivity. Qed.

Example py_lower_mixed :
  map (py_lower Sample.w17) ["ID"; "Name"; "daily_SPEND"; "x-1"; "ÉCOLE"]
  = ["id"; "name"; "daily_spend"; "x-1"; "école"].
Proof. vm_compute. reflexivity. Qed.

Example run_w_accented_columns :
  tcols <$> db (main Sample.w_accented Sample.s_init).2 !! "dbo.brand"
  = Some ["id"; "école"].
Proof. vm_compute. reflexivity. Qed.

(** ** Instances of the theorems on the concrete environments *)

Lemma build_engine_first_success_witness :
  ∃ evs,
    build_engine_from Sample.w17 (candidates) None Sample.s_empty
    = (Ok (engine_for Sample.w17 Sample.driver17),
       add_events Sample.s_empty evs)
    ∧ urls_created evs = map (url_for Sample.w17) (take 2 candidates)
    ∧ Forall (λ ev, ∀ u, event_url ev = Some u →
                         u ∈ map (url_for Sample.w17) (take 2 candidates)) evs
    ∧ last evs = Some (EPrint ("[INFO] Using driver: " +:+ Sample.driver17)).
Proof.
  apply (build_engine_first_success Sample.w17 candidates 1 Sample.driver17
           None Sample.s_empty).
  - reflexivity.
  - vm_compute. reflexivity.
  - intros [|j] c Hj Hc; [|lia]. injection Hc as <-. vm_compute. eauto.
Defined.

Lemma build_engine_all_fail_witness :
  ∃ evs msg,
    build_engine_from Sample.w_nodriver candidates None Sample.s_empty
    = (Raise (RuntimeError msg), add_events Sample.s_empty evs)
    ∧ msg = "No usable ODBC driver found. Last error: ('IM002', '[IM002] Data source name not found and no default driver specified')"
    ∧ str_contains
        "('IM002', '[IM002] Data source name not found and no default driver specified')"
        msg
    ∧ printed evs
      = concat (map (fail_lines Sample.w_nodriver (db Sample.s_empty))
                    candidates)
    ∧ (∀ c e, c ∈ candidates →
              probe_error Sample.w_nodriver (db Sample.s_empty) c = Some e →
              warn_line c e ∈ printed evs).
Proof.
  apply (build_engine_all_fail Sample.w_nodriver candidates Sample.driver17
           (Exn "InterfaceError"
              "('IM002', '[IM002] Data source name not found and no default driver specified')")
           None Sample.s_empty).
  - reflexivity.
  - vm_compute. reflexivity.
  - intros c Hc. unfold candidates in Hc.
    apply elem_of_cons in Hc as [->|Hc]; [vm_compute; eauto|].
    apply elem_of_cons in Hc as [->|Hc]; [vm_compute; eauto|].
    by apply elem_of_nil in Hc.
Defined.

Lemma main_replaces_destination_witness :
  (∃ t, db (main Sample.w17 Sample.s_init).2 !! "dbo.brand" = Some t
        ∧ trows t = map (map VText) (records Sample.brand_csv)
        ∧ length (trows t) = length (records Sample.brand_csv))
  ∧ (∃ t, db (main Sample.w17 Sample.s_init).2 !! "dbo.daily_spend" = Some t
          ∧ trows t = map (map VText) (records Sample.spend_csv)
          ∧ length (trows t) = length (records Sample.spend_csv)).
Proof.
  pose (eng := engine_for Sample.w17 Sample.driver17).
  pose (s2 := Sample.after_connection Sample.w17 Sample.s_init).
  assert (Hc : connected Sample.w17 Sample.s_init eng s2) by run_connected.
  destruct (main_replaces_destination Sample.w17 Sample.s_init eng s2 Hc)
    as [Hbrand Hspend].
  split.
  - apply (Hbrand Sample.brand_csv). run_loaded.
  - apply (Hspend Sample.spend_csv (main_ingest_brand Sample.w17 eng s2).2).
    + vm_compute. reflexivity.
    + run_loaded.
Defined.

Lemma main_columns_lowercase_witness :
  (∃ t, db (main Sample.w17 Sample.s_init).2 !! "dbo.brand" = Some t
        ∧ lowered_columns Sample.w17 Sample.brand_csv (tcols t))
  ∧ (∃ t, db (main Sample.w17 Sample.s_init).2 !! "dbo.daily_spend" = Some t
          ∧ lowered_columns Sample.w17 Sample.spend_csv (tcols t)).
Proof.
  pose (eng := engine_for Sample.w17 Sample.driver17).
  pose (s2 := Sample.after_connection Sample.w17 Sample.s_init).
  assert (Hc : connected Sample.w17 Sample.s_init eng s2) by run_connected.
  destruct (main_columns_lowercase Sample.w17 Sample.s_init eng s2 Hc)
    as [Hbrand Hspend].
  split.
  - apply (Hbrand Sample.brand_csv). run_loaded.
  - apply (Hspend Sample.spend_csv (main_ingest_brand Sample.w17 eng s2).2).
    + vm_compute. reflexivity.
    + run_loaded.
Defined.

Lemma missing_source_is_skipped_witness :
  (let eng := engine_for Sample.w_nobrand Sample.driver18 in
   let s2 := Sample.after_connection Sample.w_nobrand Sample.s_init in
   main_ingest_brand Sample.w_nobrand eng s2
   = (Ok tt, add_events s2
               [EPathExists Sample.brand_path;
                EPrint (missing_warning Sample.w_nobrand Sample.brand_path)])
   ∧ db (main Sample.w_nobrand Sample.s_init).2 !! "dbo.daily_spend"
     = Some (written_table Sample.w_nobrand Sample.spend_csv))
  ∧ (let eng := engine_for Sample.w_nospend Sample.driver18 in
     let s2 := Sample.after_connection Sample.w_nospend Sample.s_init in
     let s3 := (main_ingest_brand Sample.w_nospend eng s2).2 in
     main_ingest_spend Sample.w_nospend eng s3
     = (Ok tt, add_events s3
                 [EPathExists Sample.spend_path;
                  EPrint (missing_warning Sample.w_nospend Sample.spend_path)])
     ∧ db (main Sample.w_nospend Sample.s_init).2 !! "dbo.brand"
       = Some (written_table Sample.w_nospend Sample.brand_csv))
  ∧ main Sample.w_longbrand Sample.s_init
    = (Raise (Sample.name_too_long Sample.long_path),
       add_events (Sample.after_connection Sample.w_longbrand Sample.s_init)
         [EPathExists Sample.long_path])
  ∧ main Sample.w_longspend Sample.s_init
    = (Raise (Sample.name_too_long Sample.long_path),
       add_events
         (main_ingest_brand Sample.w_longspend
            (engine_for Sample.w_longspend Sample.driver18)
            (Sample.after_connection Sample.w_longspend Sample.s_init)).2
         [EPathExists Sample.long_path]).
Proof.
  split; [|split; [|split]].
  - intros eng s2.
    assert (Hc : connected Sample.w_nobrand Sample.s_init eng s2)
      by run_connected.
    destruct (missing_source_is_skipped Sample.w_nobrand Sample.s_init eng s2
                Hc) as (Hbrand & _).
    destruct Hbrand as (Hb & _ & _ & _ & Hother); [vm_compute; reflexivity|].
    split; [exact Hb|]. apply (Hother Sample.spend_csv). run_loaded.
  - intros eng s2 s3.
    assert (Hc : connected Sample.w_nospend Sample.s_init eng s2)
      by run_connected.
    destruct (missing_source_is_skipped Sample.w_nospend Sample.s_init eng s2
                Hc) as (_ & Hspend & _).
    destruct (Hspend s3) as (Hs & _ & _ & _ & Hother);
      [vm_compute; reflexivity | vm_compute; reflexivity |].
    split; [exact Hs|]. apply (Hother Sample.brand_csv). run_loaded.
  - pose (eng := engine_for Sample.w_longbrand Sample.driver18).
    pose (s2 := Sample.after_connection Sample.w_longbrand Sample.s_init).
    assert (Hc : connected Sample.w_longbrand Sample.s_init eng s2)
      by run_connected.
    destruct (missing_source_is_skipped Sample.w_longbrand Sample.s_init eng
                s2 Hc) as (_ & _ & Hraise & _).
    apply Hraise. vm_compute. reflexivity.
  - pose (eng := engine_for Sample.w_longspend Sample.driver18).
    pose (s2 := Sample.after_connection Sample.w_longspend Sample.s_init).
    assert (Hc : connected Sample.w_longspend Sample.s_init eng s2)
      by run_connected.
    destruct (missing_source_is_skipped Sample.w_longspend Sample.s_init eng
                s2 Hc) as (_ & _ & _ & Hraise).
    apply (Hraise (main_ingest_brand Sample.w_longspend eng s2).2).
    + vm_compute. reflexivity.
    + vm_compute. reflexivity.
Defined.

Lemma sanity_counts_never_abort_witness :
  (let W := Sample.w_nobrand in
   let eng := engine_for W Sample.driver18 in
   let s2 := Sample.after_connection W Sample.s_empty in
   let s3 := (main_ingest_brand W eng s2).2 in
   let s4 := (main_ingest_spend W eng s3).2 in
   exec_scalar W Verify (eng_url eng) (count_sql "brand") (db s4)
   = inl (Exn "ProgrammingError" "Invalid object name 'dbo.brand'.")
   ∧ main W Sample.s_empty
     = (Ok tt,
        add_events s4
          [EConnect Verify (eng_url eng);
           EExecute Verify (eng_url eng) (count_sql "brand");
           EExecute Verify (eng_url eng) (count_sql "daily_spend");
           EPrint (count_line "daily_spend" (SInt 1));
           EPrint done_line])
     ∧ db (main W Sample.s_empty).2 = db s4)
  ∧ (let eng := engine_for Faults.w_verify_fails Sample.driver17 in
     let s2 := Sample.after_connection Faults.w_verify_fails Sample.s_empty in
     let s3 := (main_ingest_brand Faults.w_verify_fails eng s2).2 in
     let s4 := (main_ingest_spend Faults.w_verify_fails eng s3).2 in
     main Faults.w_verify_fails Sample.s_empty
     = (Raise Faults.connection_lost,
        add_events s4 [EConnect Verify (eng_url eng)])).
Proof.
  split.
  - intros W eng s2 s3 s4. split; [vm_compute; reflexivity|].
    apply (sanity_counts_never_abort W Sample.s_empty eng s2 s3 s4).
    + run_connected.
    + vm_compute. reflexivity.
    + vm_compute. reflexivity.
    + vm_compute. reflexivity.
  - intros eng s2 s3 s4.
    apply (sanity_counts_never_abort Faults.w_verify_fails Sample.s_empty
             eng s2 s3 s4).
    + run_connected.
    + vm_compute. reflexivity.
    + vm_compute. reflexivity.
    + vm_compute. reflexivity.
Defined.

Lemma read_csv_any_keeps_text_witness :
  let df := Frame ["ID"; "Name"]
              [[CStr "1"; CStr "Acme"]; [CStr "2"; CStr "Globex"];
               [CStr "3"; CStr ""]] in
  let s1 := add_events Sample.s_empty
              [EReadCsv Sample.brand_path true false None] in
  let written :=
    frame_to_table false
      (set_columns df (map (py_lower Sample.w17) (columns df))) in
  ∃ raw evs,
    load_outcome Sample.w17 Sample.brand_path = inr raw
    ∧ s1 = add_events Sample.s_empty evs
    ∧ Forall (λ ev, ∃ enc, ev = EReadCsv Sample.brand_path true false enc) evs
    ∧ rows df = map (map CStr) (records raw)
    ∧ trows written = map (map VText) (records raw)
    ∧ ∀ i j txt,
        (records raw !! i) ≫= (λ r, r !! j) = Some txt →
        (rows df !! i) ≫= (λ r, r !! j) = Some (CStr txt)
        ∧ (trows written !! i) ≫= (λ r, r !! j) = Some (VText txt).
Proof.
  intros df s1.
  apply (read_csv_any_keeps_text Sample.w17 Sample.brand_path Sample.s_empty
           df s1).
  vm_compute. reflexivity.
Defined.

Lemma brand_load_failure_aborts_run_witness :
  let W := Sample.w_badbrand in
  ∃ evs0,
    let evs := evs0 ++ read_phase W "brand" (BRAND_CSV W) in
    main W Sample.s_init = (Raise Sample.parser_error,
                            add_events Sample.s_init evs)
    ∧ Forall (λ ev, is_connection_event ev = true) evs0
    ∧ Forall (λ ev, is_to_sql ev = false ∧ is_verify ev = false) evs
    ∧ List.filter is_path_check evs = [EPathExists (BRAND_CSV W)]
    ∧ Forall (λ ev, is_read_csv ev = true →
                    ∃ enc, ev = EReadCsv (BRAND_CSV W) true false enc) evs
    ∧ (∃ enc, last evs = Some (EReadCsv (BRAND_CSV W) true false enc))
    ∧ db (main W Sample.s_init).2 = db Sample.s_init.
Proof.
  intros W.
  apply (brand_load_failure_aborts_run W Sample.s_init
           (engine_for W Sample.driver18)
           (Sample.after_connection W Sample.s_init) Sample.parser_error).
  - run_connected.
  - vm_compute. reflexivity.
  - vm_compute. reflexivity.
Defined.

Lemma absent_source_destination_untouched_witness :
  (db (main Sample.w_nobrand Sample.s_init).2 !! "dbo.brand"
   = Some Sample.old_brand
   ∧ (main Sample.w_nobrand Sample.s_init).1 = Ok tt
   ∧ last (trace (main Sample.w_nobrand Sample.s_init).2)
     = Some (EPrint done_line))
  ∧ (db (main Sample.w_nospend Sample.s_init).2 !! "dbo.daily_spend" = None
     ∧ (main Sample.w_nospend Sample.s_init).1 = Ok tt
     ∧ last (trace (main Sample.w_nospend Sample.s_init).2)
       = Some (EPrint done_line))
  ∧ (db (main Faults.w_nobrand_verify_fails Sample.s_init).2 !! "dbo.brand"
     = Some Sample.old_brand
     ∧ main Faults.w_nobrand_verify_fails Sample.s_init
       = (Raise Faults.connection_lost,
          add_events
            (main_ingest_spend Faults.w_nobrand_verify_fails
               (engine_for Faults.w_nobrand_verify_fails Sample.driver18)
               (main_ingest_brand Faults.w_nobrand_verify_fails
                  (engine_for Faults.w_nobrand_verify_fails Sample.driver18)
                  (Sample.after_connection Faults.w_nobrand_verify_fails
                     Sample.s_init)).2).2
            [EConnect Verify
               (url_for Faults.w_nobrand_verify_fails Sample.driver18)])).
Proof.
  split; [|split].
  - pose (eng := engine_for Sample.w_nobrand Sample.driver18).
    pose (s2 := Sample.after_connection Sample.w_nobrand Sample.s_init).
    pose (s3 := (main_ingest_brand Sample.w_nobrand eng s2).2).
    pose (s4 := (main_ingest_spend Sample.w_nobrand eng s3).2).
    assert (Hc : connected Sample.w_nobrand Sample.s_init eng s2)
      by run_connected.
    destruct (absent_source_destination_untouched Sample.w_nobrand
                Sample.s_init eng s2 Hc) as [Hbrand _].
    destruct Hbrand as (_ & Hdb & Hdone); [vm_compute; reflexivity|].
    split; [rewrite Hdb; vm_compute; reflexivity|].
    destruct (Hdone s3 s4) as [Hopen _]; [vm_compute; reflexivity..|].
    destruct Hopen as (evs & Hrun & _ & _ & Hlast); [vm_compute; reflexivity|].
    rewrite Hrun. split; [done|].
    simpl. by rewrite last_app, Hlast.
  - pose (eng := engine_for Sample.w_nospend Sample.driver18).
    pose (s2 := Sample.after_connection Sample.w_nospend Sample.s_init).
    pose (s3 := (main_ingest_brand Sample.w_nospend eng s2).2).
    pose (s4 := (main_ingest_spend Sample.w_nospend eng s3).2).
    assert (Hc : connected Sample.w_nospend Sample.s_init eng s2)
      by run_connected.
    destruct (absent_source_destination_untouched Sample.w_nospend
                Sample.s_init eng s2 Hc) as [_ Hspend].
    destruct Hspend as (_ & Hdb & Hdone); [vm_compute; reflexivity|].
    split; [rewrite Hdb; vm_compute; reflexivity|].
    destruct (Hdone s3 s4) as [Hopen _]; [vm_compute; reflexivity..|].
    destruct Hopen as (evs & Hrun & _ & _ & Hlast); [vm_compute; reflexivity|].
    rewrite Hrun. split; [done|].
    simpl. by rewrite last_app, Hlast.
  - pose (eng := engine_for Faults.w_nobrand_verify_fails Sample.driver18).
    pose (s2 := Sample.after_connection Faults.w_nobrand_verify_fails
                  Sample.s_init).
    pose (s3 := (main_ingest_brand Faults.w_nobrand_verify_fails eng s2).2).
    pose (s4 := (main_ingest_spend Faults.w_nobrand_verify_fails eng s3).2).
    assert (Hc : connected Faults.w_nobrand_verify_fails Sample.s_init eng s2)
      by run_connected.
    destruct (absent_source_destination_untouched
                Faults.w_nobrand_verify_fails Sample.s_init eng s2 Hc)
      as [Hbrand _].
    destruct Hbrand as (_ & Hdb & Hdone); [vm_compute; reflexivity|].
    split; [rewrite Hdb; vm_compute; reflexivity|].
    destruct (Hdone s3 s4) as [_ Hshut]; [vm_compute; reflexivity..|].
    apply Hshut. vm_compute. reflexivity.
Defined.

(** ** Runs in which the specification does not hold as written *)

(** C4, as written, fails on a header row with a repeated and an empty
    cell: pandas renames these cells before the script lowers the
    labels, so the columns written are not the lowercase header cells. *)
Lemma repeated_header_cells_are_renamed :
  load_outcome Sample.w_repeated Sample.brand_path = inr Sample.repeated_csv
  ∧ header Sample.repeated_csv = ["Name"; "Name"; ""]
  ∧ tcols <$> db (main Sample.w_repeated Sample.s_init).2 !! "dbo.brand"
    = Some ["name"; "name.1"; "unnamed: 2"]
  ∧ map (py_lower Sample.w_repeated) (header Sample.repeated_csv)
    = ["name"; "name"; ""]
  ∧ ¬ (∀ c, c ∈ ["name"; "name.1"; "unnamed: 2"]
            ↔ ∃ h, h ∈ header Sample.repeated_csv
                   ∧ c = py_lower Sample.w_repeated h).
Proof.
  split; [vm_compute; reflexivity|]. split; [reflexivity|].
  split; [vm_compute; reflexivity|]. split; [vm_compute; reflexivity|].
  intros H. destruct (H "name.1") as [Hin _].
  destruct Hin as (h & Hh & Hc); [right; left|].
  simpl in Hh.
  repeat (apply elem_of_cons in Hh as [->|Hh]; [vm_compute in Hc; discriminate|]).
  by apply elem_of_nil in Hh.
Qed.

(** C6, as written, fails on a path that cannot be on disk because its
    name is too long: the existence check raises instead of answering,
    so there is no warning, the run aborts, and the spend file, which is
    there, is never loaded. *)
Lemma unreachable_path_aborts_run :
  BRAND_CSV Sample.w_longbrand = Sample.long_path
  ∧ Sample.both_files !! Sample.long_path = None
  ∧ is_Some (Sample.both_files !! SPEND_CSV Sample.w_longbrand)
  ∧ main Sample.w_longbrand Sample.s_init
    = (Raise (Sample.name_too_long Sample.long_path),
       add_events (Sample.after_connection Sample.w_longbrand Sample.s_init)
         [EPathExists Sample.long_path])
  ∧ forallb (λ l, negb (String.prefix "[WARN]" l))
      (printed (trace (main Sample.w_longbrand Sample.s_init).2)) = true
  ∧ forallb (λ ev, negb (is_read_csv ev) && negb (is_to_sql ev))
      (trace (main Sample.w_longbrand Sample.s_init).2) = true
  ∧ db (main Sample.w_longbrand Sample.s_init).2 !! "dbo.daily_spend" = None.
Proof.
  split; [vm_compute; reflexivity|]. split; [vm_compute; reflexivity|].
  split; [by vm_compute; eexists|].
  repeat split; vm_compute; reflexivity.
Qed.

(** C7, as written, fails when the connection of line 101 does not
    open: both sources were loaded and written, and yet the run ends
    with the error of the verification step, without any count and
    without the [DONE] line. *)
Lemma verify_connection_failure_aborts_run :
  (main_ingest_spend Faults.w_verify_fails
     (engine_for Faults.w_verify_fails Sample.driver17)
     (main_ingest_brand Faults.w_verify_fails
        (engine_for Faults.w_verify_fails Sample.driver17)
        (Sample.after_connection Faults.w_verify_fails Sample.s_empty)).2).1
  = Ok tt
  ∧ (main Faults.w_verify_fails Sample.s_empty).1
    = Raise Faults.connection_lost
  ∧ last (trace (main Faults.w_verify_fails Sample.s_empty).2)
    = Some (EConnect Verify (url_for Faults.w_verify_fails Sample.driver17))
  ∧ forallb (λ ev, match ev with EExecute Verify _ _ => false | _ => true end)
      (trace (main Faults.w_verify_fails Sample.s_empty).2) = true
  ∧ forallb (λ l, negb (String.eqb l done_line))
      (printed (trace (main Faults.w_verify_fails Sample.s_empty).2)) = true.
Proof. repeat split; vm_compute; reflexivity. Qed.

(** C10, as written, fails in the same way: with the brand file absent
    and the spend file loaded, a connection of line 101 that does not
    open ends the run with an error; no count is asked for, neither for
    [brand] nor for [daily_spend], and the [DONE] line is not printed. *)
Lemma absent_source_run_can_abort :
  path_exists Faults.w_nobrand_verify_fails
    (BRAND_CSV Faults.w_nobrand_verify_fails) = inr false
  ∧ db (main Faults.w_nobrand_verify_fails Sample.s_init).2 !! "dbo.brand"
    = Some Sample.old_brand
  ∧ (main Faults.w_nobrand_verify_fails Sample.s_init).1
    = Raise Faults.connection_lost
  ∧ forallb (λ ev, match ev with EExecute Verify _ _ => false | _ => true end)
      (trace (main Faults.w_nobrand_verify_fails Sample.s_init).2) = true
  ∧ forallb (λ l, negb (String.eqb l done_line))
      (printed (trace (main Faults.w_nobrand_verify_fails Sample.s_init).2))
    = true.
Proof. repeat split; vm_compute; reflexivity. Qed.

(** ** Whole runs: what main does and what it never does *)

Lemma str_length_app (a b : string) :
  String.length (a +:+ b) = String.length a + String.length b.
Proof.
  induction a as [|x a IH]; [done|].
  change (S (String.length (a +:+ b)) = S (String.length a + String.length b)).
  by rewrite IH.
Qed.

Lemma str_app_inj_r (a b s : string) : a +:+ s = b +:+ s → a = b.
Proof.
  revert b. induction a as [|x a IH]; intros [|y b] H.
  - done.
  - apply (f_equal String.length) in H.
    rewrite !str_length_app in H. simpl in H. lia.
  - apply (f_equal String.length) in H.
    rewrite !str_length_app in H. simpl in H. lia.
  - change (String x (a +:+ s) = String y (b +:+ s)) in H.
    injection H as -> H. f_equal. by apply IH.
Qed.

(** A line that starts with another tag is not the [DONE] line. *)
Lemma tagged_not_done (tag rest : string) :
  tag ∈ ["[INFO] "; "[WARN] "; "[OK] "] → tag +:+ rest ≠ done_line.
Proof.
  intros Htag H.
  repeat (apply elem_of_cons in Htag as [->|Htag]; [discriminate H|]).
  by apply elem_of_nil in Htag.
Qed.

Ltac not_done :=
  first
    [ apply (tagged_not_done "[INFO] "); repeat constructor
    | apply (tagged_not_done "[WARN] "); repeat constructor
    | apply (tagged_not_done "[OK] "); repeat constructor ].

Section Runs.

Variable W : world.

Lemma url_for_script d : d ∈ candidates → url_for W d ∈ script_urls W.
Proof. intros H. unfold script_urls. by apply list_elem_of_fmap_2. Qed.

Lemma try_driver_calls driver s :
  driver ∈ candidates →
  ∃ evs, (try_driver W driver s).2 = add_events s evs
         ∧ Forall (call_of W Build) evs.
Proof.
  intros Hd. pose proof (url_for_script _ Hd) as Hu.
  unfold try_driver, URL_create, create_engine, connect,
    exec_driver_sql, print, emit, bind, ret, lift_err, lift_sum, get_db, raise.
  fold (url_for W driver). simpl.
  destruct (create_engine_err W _) as [e|]; simpl;
    [|destruct (connect_err W Probe _) as [e|]; simpl;
      [|destruct (exec_scalar W Probe _ "SELECT 1" (db s)) as [e|v]; simpl]];
    (eexists; rewrite !add_events_app; split; [reflexivity|];
     repeat apply Forall_cons_2; try apply Forall_nil_2; simpl;
     try not_done; auto 10).
Qed.

(** The loop only makes the calls of build_engine, and an engine it
    returns is the one of a candidate whose probe succeeded. *)
Lemma build_engine_from_calls cands last_err s :
  (∀ c, c ∈ cands → c ∈ candidates) →
  ∃ evs,
    (build_engine_from W cands last_err s).2 = add_events s evs
    ∧ Forall (call_of W Build) evs
    ∧ ∀ eng, (build_engine_from W cands last_err s).1 = Ok eng →
             ∃ d, d ∈ cands ∧ eng = engine_for W d.
Proof.
  revert last_err s. induction cands as [|c cands IH]; intros last_err s Hin.
  - exists []. rewrite add_events_nil. by repeat split.
  - destruct (try_driver_calls c s) as (ev1 & H1 & Hev1);
      [apply Hin; left|].
    destruct (try_driver_run W c s) as (ev1' & Hrun & _).
    destruct (try_driver W c s) as [[eng|e] s1] eqn:Htry; simpl in H1; subst s1.
    + rewrite (build_engine_from_cons_ok W _ _ _ _ _ _ Htry). simpl.
      exists ev1. split; [done|]. split; [done|].
      intros eng' [= <-]. exists c. split; [left|].
      destruct (probe_error W (db s) c); congruence.
    + rewrite (build_engine_from_cons_raise W _ _ _ _ _ _ Htry).
      destruct (IH (Some e) (add_events (add_events s ev1)
                               [EPrint (warn_line c e)]))
        as (ev2 & H2 & Hev2 & Heng).
      { intros c' Hc'. apply Hin. by right. }
      exists (ev1 ++ [EPrint (warn_line c e)] ++ ev2).
      rewrite H2, !add_events_app. split; [done|]. split.
      * rewrite !Forall_app. split; [done|]. split; [|done].
        apply Forall_singleton. simpl. unfold warn_line. not_done.
      * intros eng Hok. rewrite <- add_events_app in Hok.
        destruct (Heng eng Hok) as (d & Hd & ->).
        exists d. split; [by right | done].
Qed.

Lemma main_smoke_test_calls eng s :
  eng_url eng ∈ script_urls W →
  ∃ evs, (main_smoke_test W eng s).2 = add_events s evs
         ∧ Forall (call_of W SmokeTest) evs.
Proof.
  intros Hu.
  unfold main_smoke_test, connect, execute_scalar, print, emit, bind, ret,
    lift_err, lift_sum, get_db, raise. simpl.
  destruct (connect_err W Smoke _) as [e|]; simpl;
    [|destruct (exec_scalar W Smoke _ "SELECT @@VERSION" (db s)) as [e|v];
      simpl];
    (eexists; rewrite ?add_events_app; split; [reflexivity|];
     repeat apply Forall_cons_2; try apply Forall_nil_2; simpl;
     try not_done; auto 10).
Qed.

Lemma load_events_calls path name :
  Forall (call_of W (Ingest path name)) (load_events W path).
Proof.
  unfold load_events.
  destruct (csv_tokenize W path None) as [e|raw];
    [destruct (is_UnicodeDecodeError e)|];
    repeat apply Forall_cons_2; try apply Forall_nil_2; simpl; eauto 10.
Qed.

Lemma read_phase_calls label path name :
  Forall (call_of W (Ingest path name)) (read_phase W label path).
Proof.
  unfold read_phase. apply Forall_cons_2; [simpl; eauto|].
  apply Forall_cons_2; [simpl; not_done|]. apply load_events_calls.
Qed.

(** Whatever its outcome, a block only makes the calls of its kind. *)
Lemma ingest_block_calls label path name eng s :
  eng_url eng ∈ script_urls W →
  ∃ evs,
    trace (ingest_block W label path name eng s).2 = trace s ++ evs
    ∧ Forall (call_of W (Ingest path name)) evs.
Proof.
  intros Hu. destruct (path_exists W path) as [e0|[]] eqn:Hex.
  - rewrite (ingest_block_check_fails W _ _ _ _ _ _ Hex).
    exists [EPathExists path]. split; [done|].
    apply Forall_singleton. simpl. eauto.
  - destruct (load_outcome W path) as [e|raw] eqn:Hload.
    + rewrite (ingest_block_read_fails W _ _ _ _ _ _ Hex Hload).
      exists (read_phase W label path). split; [done|].
      apply read_phase_calls.
    + rewrite (ingest_block_loaded W _ _ _ _ _ _ Hex Hload).
      exists (write_phase W label path name eng raw). split.
      { by destruct (to_sql_err W _ name "dbo" _). }
      unfold write_phase. apply Forall_app. split; [apply read_phase_calls|].
      apply Forall_cons_2; [simpl; not_done|].
      apply Forall_singleton. simpl. eauto 10.
  - rewrite (ingest_block_missing W _ _ _ _ _ Hex).
    exists [EPathExists path; EPrint (missing_warning W path)].
    split; [done|]. apply Forall_cons_2; [simpl; eauto|].
    apply Forall_singleton. simpl. unfold missing_warning. not_done.
Qed.

Lemma count_events_calls eng d t :
  eng_url eng ∈ script_urls W → t ∈ script_tables →
  Forall (call_of W Counts) (count_events W eng d t).
Proof.
  intros Hu Ht. unfold count_events. apply Forall_cons_2.
  { simpl. split; [done|]. right. eauto 10. }
  destruct (exec_scalar W Verify _ _ d); [done|].
  apply Forall_singleton. simpl. unfold count_line. not_done.
Qed.

(** The end of a run: the calls of the counts, then the [DONE] line if
    and only if the counts returned. *)
Lemma sanity_tail_calls eng s :
  eng_url eng ∈ script_urls W →
  ∃ evs,
    Forall (call_of W Counts) evs
    ∧ trace ((main_sanity_counts W eng ;;; print done_line) s).2
      = trace s ++ evs
        ++ match ((main_sanity_counts W eng ;;; print done_line) s).1 with
           | Ok _ => [EPrint done_line]
           | Raise _ => []
           end.
Proof.
  intros Hu. rewrite sanity_tail_run.
  destruct (connect_err W Verify (eng_url eng)).
  - exists [EConnect Verify (eng_url eng)]. split; [|done].
    apply Forall_singleton. simpl. auto 10.
  - exists (sanity_events W eng (db s)). split; [|done].
    unfold sanity_events. apply Forall_cons_2; [simpl; auto 10|].
    apply Forall_app. split; apply count_events_calls; try done.
    + left.
    + right. left.
Qed.

(** *** The three ways a run can go *)

Lemma main_cases s0 :
  let s0' := add_events s0 [EPrint "[INFO] Connecting to Azure SQL..."] in
  (∃ e s1, build_engine W s0' = (Raise e, s1) ∧ main W s0 = (Raise e, s1))
  ∨ (∃ eng s1 e s2,
       build_engine W s0' = (Ok eng, s1)
       ∧ main_smoke_test W eng s1 = (Raise e, s2)
       ∧ main W s0 = (Raise e, s2))
  ∨ (∃ eng s2, connected W s0 eng s2).
Proof.
  intros s0'.
  assert (Hmain : main W s0
                  = (eng <- build_engine W ;;
                     main_smoke_test W eng ;;;
                     main_ingest_brand W eng ;;;
                     main_ingest_spend W eng ;;;
                     main_sanity_counts W eng ;;;
                     print "[DONE] Ingestion complete.") s0') by done.
  destruct (build_engine W s0') as [[eng|e] s1] eqn:Hb.
  - destruct (main_smoke_test W eng s1) as [[[]|e] s2] eqn:Hs.
    + right. right. exists eng, s2, s1. by split.
    + right. left. exists eng, s1, e, s2. split; [done|]. split; [done|].
      rewrite Hmain, (bind_Ok _ _ _ _ _ Hb). by rewrite (bind_Raise _ _ _ _ _ Hs).
  - left. exists e, s1. split; [done|].
    by rewrite Hmain, (bind_Raise _ _ _ _ _ Hb).
Qed.

Lemma build_engine_calls s :
  ∃ evs,
    (build_engine W s).2 = add_events s evs
    ∧ Forall (call_of W Build) evs
    ∧ ∀ eng, (build_engine W s).1 = Ok eng → eng_url eng ∈ script_urls W.
Proof.
  destruct (build_engine_from_calls candidates None s) as (evs & H & Hev & He);
    [done|].
  exists evs. split; [done|]. split; [done|].
  intros eng Hok. destruct (He eng Hok) as (d & Hd & ->).
  by apply url_for_script.
Qed.

Lemma connecting_line_call :
  call_of W Build (EPrint "[INFO] Connecting to Azure SQL...").
Proof. simpl. not_done. Qed.

(** The connection phase of a run that gets through it. *)
Lemma connected_calls s0 eng s2 :
  connected W s0 eng s2 →
  eng_url eng ∈ script_urls W
  ∧ ∃ e_build e_smoke,
      s2 = add_events s0 (e_build ++ e_smoke)
      ∧ Forall (call_of W Build) e_build
      ∧ Forall (call_of W SmokeTest) e_smoke.
Proof.
  intros (s1 & Hb & Hs).
  destruct (build_engine_calls
              (add_events s0 [EPrint "[INFO] Connecting to Azure SQL..."]))
    as (ev1 & H1 & Hev1 & Hu).
  rewrite Hb in H1, Hu. simpl in H1. specialize (Hu eng eq_refl).
  destruct (main_smoke_test_calls eng s1 Hu) as (ev2 & H2 & Hev2).
  rewrite Hs in H2. simpl in H2. subst s1 s2. split; [done|].
  exists (EPrint "[INFO] Connecting to Azure SQL..." :: ev1), ev2.
  rewrite !add_events_app. split; [done|]. split; [|done].
  apply Forall_cons_2; [apply connecting_line_call | done].
Qed.

Lemma phase_calls ph evs :
  ph ∈ main_phases W → Forall (call_of W ph) evs → Forall (script_call W) evs.
Proof.
  intros Hph Hall. eapply Forall_impl; [exact Hall|].
  intros ev Hev. by exists ph.
Qed.

(** Every run is a sequence of calls of the script, followed by the
    [DONE] line exactly when main returns. *)
Lemma main_calls s0 :
  ∃ body,
    Forall (script_call W) body
    ∧ trace (main W s0).2
      = trace s0 ++ body
        ++ match (main W s0).1 with
           | Ok _ => [EPrint done_line]
           | Raise _ => []
           end.
Proof.
  assert (HB : Build ∈ main_phases W) by left.
  assert (HS : SmokeTest ∈ main_phases W) by (right; left).
  assert (H1 : Ingest (BRAND_CSV W) "brand" ∈ main_phases W)
    by (do 2 right; left).
  assert (H2 : Ingest (SPEND_CSV W) "daily_spend" ∈ main_phases W)
    by (do 3 right; left).
  assert (HC : Counts ∈ main_phases W) by (do 4 right; left).
  destruct (main_cases s0) as [(e & s1 & Hb & Hm)
                              |[(eng & s1 & e & s2 & Hb & Hs & Hm)
                               |(eng & s2 & Hc)]].
  - destruct (build_engine_calls
                (add_events s0 [EPrint "[INFO] Connecting to Azure SQL..."]))
      as (ev1 & Hs1 & Hev1 & _).
    rewrite Hb in Hs1. simpl in Hs1. subst s1.
    exists (EPrint "[INFO] Connecting to Azure SQL..." :: ev1).
    split.
    + apply (phase_calls Build); [done|].
      apply Forall_cons_2; [apply connecting_line_call | done].
    + rewrite Hm. simpl. by rewrite app_nil_r, <- app_assoc.
  - destruct (build_engine_calls
                (add_events s0 [EPrint "[INFO] Connecting to Azure SQL..."]))
      as (ev1 & Hs1 & Hev1 & Hu).
    rewrite Hb in Hs1, Hu. simpl in Hs1. specialize (Hu eng eq_refl).
    destruct (main_smoke_test_calls eng s1 Hu) as (ev2 & Hs2 & Hev2).
    rewrite Hs in Hs2. simpl in Hs2. subst s1 s2.
    exists ((EPrint "[INFO] Connecting to Azure SQL..." :: ev1) ++ ev2).
    split.
    + apply Forall_app. split; [|by apply (phase_calls SmokeTest)].
      apply (phase_calls Build); [done|].
      apply Forall_cons_2; [apply connecting_line_call | done].
    + rewrite Hm. simpl. by rewrite app_nil_r, <- !app_assoc.
  - destruct (connected_calls _ _ _ Hc) as (Hu & eb & es & -> & Heb & Hes).
    destruct (ingest_block_calls "brand" (BRAND_CSV W) "brand" eng
                (add_events s0 (eb ++ es)) Hu) as (ev1 & Ht1 & Hev1).
    rewrite <- main_ingest_brand_block in Ht1.
    destruct (main_ingest_brand W eng (add_events s0 (eb ++ es)))
      as [[[]|e] s3] eqn:Hbr; simpl in Ht1.
    + destruct (ingest_block_calls "spend" (SPEND_CSV W) "daily_spend" eng
                  s3 Hu) as (ev2 & Ht2 & Hev2).
      rewrite <- main_ingest_spend_block in Ht2.
      destruct (main_ingest_spend W eng s3) as [[[]|e] s4] eqn:Hsp;
        simpl in Ht2.
      * destruct (sanity_tail_calls eng s4 Hu) as (ev3 & Hev3 & Ht3).
        exists ((eb ++ es) ++ ev1 ++ ev2 ++ ev3).
        rewrite (main_spend_Ok W _ _ _ _ _ Hc Hbr Hsp), Ht3, Ht2, Ht1.
        simpl. split; [|by rewrite <- !app_assoc].
        rewrite !Forall_app. repeat split; eauto using phase_calls.
      * exists ((eb ++ es) ++ ev1 ++ ev2).
        rewrite (main_spend_Raise W _ _ _ _ _ _ Hc Hbr Hsp). simpl.
        rewrite Ht2, Ht1. simpl. split; [|by rewrite app_nil_r, <- !app_assoc].
        rewrite !Forall_app. repeat split; eauto using phase_calls.
    + exists ((eb ++ es) ++ ev1).
      rewrite (main_brand_Raise W _ _ _ _ _ Hc Hbr). simpl.
      rewrite Ht1. simpl. split; [|by rewrite app_nil_r, <- !app_assoc].
      rewrite !Forall_app. repeat split; eauto using phase_calls.
Qed.

(** A property of every call of the script holds of every event of
    every run. *)
Lemma main_calls_Forall (P : event → Prop) s0 :
  (∀ ev, script_call W ev → P ev) →
  P (EPrint done_line) →
  ∃ evs, trace (main W s0).2 = trace s0 ++ evs ∧ Forall P evs.
Proof.
  intros Hcall Hdone. destruct (main_calls s0) as (body & Hbody & Htr).
  eexists. split; [exact Htr|]. apply Forall_app. split.
  - eapply Forall_impl; [exact Hbody|]. exact Hcall.
  - destruct (main W s0).1; by repeat constructor.
Qed.

Lemma odbc_string_shape d :
  odbc_string W d
  = ("DRIVER={" +:+ d +:+ "};")
    +:+ ("SERVER=" +:+ SERVER W +:+ ";DATABASE=" +:+ DATABASE W
         +:+ ";UID=" +:+ USERNAME W +:+ ";PWD=" +:+ PASSWORD W +:+ ";")
    +:+ encryption_flags.
Proof. unfold odbc_string. by rewrite !str_app_assoc. Qed.

Lemma script_urls_inv u :
  u ∈ script_urls W → ∃ d, d ∈ candidates ∧ u = url_for W d.
Proof.
  unfold script_urls. intros (d & -> & Hd)%list_elem_of_fmap. eauto.
Qed.

(** X9. In every run, every URL handed to SQLAlchemy is of the pyodbc
    dialect, carries nothing but the [odbc_connect] string of one of the
    two candidate drivers, and that string names the driver first, then
    the server settings, and ends with [Encrypt=yes],
    [TrustServerCertificate=no] and the 30 second timeout; every engine
    is created with [fast_executemany=True]. *)
Theorem connection_strings_demand_encryption (s0 : state) :
  ∃ evs,
    trace (main W s0).2 = trace s0 ++ evs
    ∧ Forall (λ ev,
        match ev with
        | EUrlCreate u =>
            ∃ d settings,
              d ∈ candidates
              ∧ drivername u = "mssql+pyodbc"
              ∧ query u
                = [("odbc_connect",
                    ("DRIVER={" +:+ d +:+ "};") +:+ settings
                    +:+ encryption_flags)]
        | ECreateEngine u fast => u ∈ script_urls W ∧ fast = true
        | _ => True
        end) evs.
Proof.
  apply main_calls_Forall; [|done].
  intros [] (ph & _ & Hcall); simpl in Hcall; try done.
  - destruct Hcall as (_ & (d & Hd & ->)%script_urls_inv).
    exists d. eexists. split; [done|]. split; [done|].
    simpl. by rewrite odbc_string_shape.
  - by destruct Hcall as (_ & ? & ?).
Qed.

(** X10. In every run, the only statements sent to the server are [SELECT 1],
    [SELECT @@VERSION] and the two row counts: the script itself never
    sends a statement that changes data. *)
Theorem only_select_statements_sent (s0 : state) :
  ∃ evs,
    trace (main W s0).2 = trace s0 ++ evs
    ∧ Forall (λ ev,
        match ev with
        | EExecDriverSql _ _ sql | EExecute _ _ sql =>
            sql ∈ script_statements
        | _ => True
        end) evs.
Proof.
  apply main_calls_Forall; [|done].
  intros [] (ph & _ & Hcall); simpl in Hcall; try done.
  - destruct Hcall as (_ & _ & _ & ->). left.
  - destruct Hcall as (_ & [(_ & _ & ->)|(_ & _ & t & Ht & ->)]).
    + right. left.
    + unfold script_tables in Ht.
      apply elem_of_cons in Ht as [->|Ht]; [do 2 right; left|].
      apply elem_of_cons in Ht as [->|Ht]; [do 3 right; left|].
      by apply elem_of_nil in Ht.
Qed.

Lemma main_phases_ingest path name :
  Ingest path name ∈ main_phases W →
  (path = BRAND_CSV W ∧ name = "brand")
  ∨ (path = SPEND_CSV W ∧ name = "daily_spend").
Proof.
  unfold main_phases. intros H.
  repeat (apply elem_of_cons in H as [H|H]; [try discriminate H|]).
  - injection H as -> ->. by left.
  - injection H as -> ->. by right.
  - by apply elem_of_nil in H.
Qed.

(** X11. In every run, every to_sql goes to [brand] or [daily_spend] in
    schema [dbo], with [if_exists="replace"] and [index=False].  The
    frame it writes is the one loaded from the file of that table: same
    rows, and as column names the [str.lower()] of the labels of the
    loaded frame, so that a label that is pure ASCII is written with
    [A-Z] turned into [a-z] and no capital letter left. *)
Theorem every_write_is_a_replace (s0 : state) :
  ∃ evs,
    trace (main W s0).2 = trace s0 ++ evs
    ∧ Forall (λ ev,
        match ev with
        | EToSql n sch mode idx df _ =>
            n ∈ script_tables ∧ sch = "dbo" ∧ mode = IfReplace
            ∧ idx = false
            ∧ ∃ path raw,
                (path, n) ∈ [(BRAND_CSV W, "brand");
                             (SPEND_CSV W, "daily_spend")]
                ∧ load_outcome W path = inr raw
                ∧ rows df = map (map CStr) (records raw)
                ∧ lowered_columns W raw (columns df)
        | _ => True
        end) evs.
Proof.
  apply main_calls_Forall; [|done].
  intros [] (ph & Hph & Hcall); simpl in Hcall; try done.
  destruct Hcall as ((path & raw & -> & Hload & ->) & -> & -> & -> & _).
  assert (Hcols : lowered_columns W raw (columns (lowered_frame W raw)))
    by apply written_table_columns.
  destruct (main_phases_ingest _ _ Hph) as [[-> ->]|[-> ->]].
  - split; [left|]. repeat (split; [done|]).
    exists (BRAND_CSV W), raw. split; [left|]. done.
  - split; [right; left|]. repeat (split; [done|]).
    exists (SPEND_CSV W), raw. split; [right; left|]. done.
Qed.

(** X12. In every run, the only paths checked or read are BRAND_CSV and
    SPEND_CSV, and every read asks for [dtype=str] and
    [keep_default_na=False] under the default encoding or latin-1. *)
Theorem every_read_is_text_mode (s0 : state) :
  ∃ evs,
    trace (main W s0).2 = trace s0 ++ evs
    ∧ Forall (λ ev,
        match ev with
        | EPathExists p => p ∈ script_paths W
        | EReadCsv p dt keep enc =>
            p ∈ script_paths W ∧ dt = true ∧ keep = false
            ∧ (enc = None ∨ enc = Some "latin-1")
        | _ => True
        end) evs.
Proof.
  assert (Hpath : ∀ p name, Ingest p name ∈ main_phases W →
                            p ∈ script_paths W).
  { intros p name [[-> _]|[-> _]]%main_phases_ingest.
    - left.
    - right. left. }
  apply main_calls_Forall; [|done].
  intros [] (ph & Hph & Hcall); simpl in Hcall; try done.
  - destruct Hcall as (name & ->). eauto.
  - destruct Hcall as ((name & ->) & Hflags). split; [eauto | done].
Qed.

(** X4. The [DONE] line is printed in a run exactly when main returns
    normally, and it is then the last event of the run. *)
Theorem done_line_marks_success (s0 : state) :
  ∃ evs,
    trace (main W s0).2 = trace s0 ++ evs
    ∧ ((main W s0).1 = Ok tt ↔ EPrint done_line ∈ evs)
    ∧ ((main W s0).1 = Ok tt → last evs = Some (EPrint done_line)).
Proof.
  destruct (main_calls s0) as (body & Hbody & Htr).
  assert (Hnot : EPrint done_line ∉ body).
  { intros Hin. rewrite Forall_forall in Hbody.
    destruct (Hbody _ Hin) as (ph & _ & Hcall). by apply Hcall. }
  eexists. split; [exact Htr|].
  destruct (main W s0).1 as [[]|e].
  - split; [|by rewrite last_snoc].
    split; [|done]. intros _. apply elem_of_app. right. left.
  - rewrite app_nil_r. by split.
Qed.

(** *** The database after a run *)

Lemma build_engine_db s : db (build_engine W s).2 = db s.
Proof. destruct (build_engine_calls s) as (evs & -> & _). done. Qed.

Lemma main_smoke_test_db eng s : db (main_smoke_test W eng s).2 = db s.
Proof.
  destruct (main_smoke_test_events W eng s) as (evs & -> & _). done.
Qed.

(** X1. Whatever happens in a run, a table other than [dbo.brand] and
    [dbo.daily_spend] is afterwards what it was before. *)
Theorem main_touches_only_its_tables (s0 : state) (k : string) :
  k ≠ "dbo.brand" → k ≠ "dbo.daily_spend" →
  db (main W s0).2 !! k = db s0 !! k.
Proof.
  intros Hb Hs.
  destruct (main_cases s0) as [(e & s1 & Hbe & Hm)
                              |[(eng & s1 & e & s2 & Hbe & Hsm & Hm)
                               |(eng & s2 & Hc)]].
  - rewrite Hm. simpl. apply (f_equal snd) in Hbe. simpl in Hbe.
    by rewrite <- Hbe, build_engine_db.
  - rewrite Hm. simpl. apply (f_equal snd) in Hbe, Hsm. simpl in Hbe, Hsm.
    by rewrite <- Hsm, main_smoke_test_db, <- Hbe, build_engine_db.
  - rewrite <- (connected_db W _ _ _ Hc).
    destruct (ingest_block_frame W "brand" (BRAND_CSV W) "brand" eng s2)
      as (_ & _ & _ & Hfr).
    rewrite <- main_ingest_brand_block in Hfr.
    rewrite <- (Hfr k) by done.
    destruct (main_ingest_brand W eng s2) as [[[]|e] s3] eqn:Hbr; simpl.
    + by rewrite (main_brand_Ok W _ _ _ _ Hc Hbr), spend_tail_db.
    + by rewrite (main_brand_Raise W _ _ _ _ _ Hc Hbr).
Qed.

(** A block that returns has replaced its table if the source is there
    and has left the database alone if not. *)
Lemma ingest_block_Ok_db label path name eng s s' :
  ingest_block W label path name eng s = (Ok tt, s') →
  db s' = ingested W path name (db s).
Proof.
  unfold ingested. destruct (path_exists W path) as [e0|[]] eqn:Hex.
  - by rewrite (ingest_block_check_fails W _ _ _ _ _ _ Hex).
  - destruct (load_outcome W path) as [e|raw] eqn:Hload.
    + by rewrite (ingest_block_read_fails W _ _ _ _ _ _ Hex Hload).
    + rewrite (ingest_block_loaded W _ _ _ _ _ _ Hex Hload).
      destruct (to_sql_err W _ name "dbo" _); [done|]. by intros [= <-].
  - rewrite (ingest_block_missing W _ _ _ _ _ Hex). by intros [= <-].
Qed.

Lemma main_Ok_db s0 s' :
  main W s0 = (Ok tt, s') → db s' = db_after_run W (db s0).
Proof.
  intros Hm.
  destruct (main_cases s0) as [(e & s1 & _ & Hm')
                              |[(eng & s1 & e & s2 & _ & _ & Hm')
                               |(eng & s2 & Hc)]]; [congruence..|].
  rewrite <- (connected_db W _ _ _ Hc). unfold db_after_run.
  destruct (main_ingest_brand W eng s2) as [[[]|e] s3] eqn:Hbr.
  - destruct (main_ingest_spend W eng s3) as [[[]|e] s4] eqn:Hsp.
    + rewrite (main_spend_Ok W _ _ _ _ _ Hc Hbr Hsp) in Hm.
      apply (f_equal (λ r, db r.2)) in Hm. rewrite sanity_tail_db in Hm.
      simpl in Hm. rewrite <- Hm.
      rewrite main_ingest_spend_block in Hsp.
      rewrite main_ingest_brand_block in Hbr.
      rewrite (ingest_block_Ok_db _ _ _ _ _ _ Hsp).
      by rewrite (ingest_block_Ok_db _ _ _ _ _ _ Hbr).
    + rewrite (main_spend_Raise W _ _ _ _ _ _ Hc Hbr Hsp) in Hm. congruence.
  - rewrite (main_brand_Raise W _ _ _ _ _ Hc Hbr) in Hm. congruence.
Qed.

(** X2. When main returns normally, the database is the one it started from
    with [dbo.brand] replaced by the brand CSV if that file is there, and
    [dbo.daily_spend] replaced by the spend CSV if that file is there;
    every other table, and the table of an absent file, is unchanged. *)
Theorem main_ok_database (s0 s' : state) :
  main W s0 = (Ok tt, s') →
  db s' = db_after_run W (db s0)
  ∧ (path_exists W (BRAND_CSV W) = inr true →
     ∃ raw, load_outcome W (BRAND_CSV W) = inr raw
            ∧ db s' !! "dbo.brand" = Some (written_table W raw))
  ∧ (path_exists W (SPEND_CSV W) = inr true →
     ∃ raw, load_outcome W (SPEND_CSV W) = inr raw
            ∧ db s' !! "dbo.daily_spend" = Some (written_table W raw))
  ∧ (path_exists W (BRAND_CSV W) = inr false →
     db s' !! "dbo.brand" = db s0 !! "dbo.brand")
  ∧ (path_exists W (SPEND_CSV W) = inr false →
     db s' !! "dbo.daily_spend" = db s0 !! "dbo.daily_spend").
Proof.
  intros Hm. pose proof (main_Ok_db _ _ Hm) as Hdb. split; [done|].
  assert (Hloads : ∀ eng s2, connected W s0 eng s2 →
            (path_exists W (BRAND_CSV W) = inr true →
             is_Some (match load_outcome W (BRAND_CSV W) with
                      | inr raw => Some raw | inl _ => None end))
            ∧ (path_exists W (SPEND_CSV W) = inr true →
               is_Some (match load_outcome W (SPEND_CSV W) with
                        | inr raw => Some raw | inl _ => None end))).
  { intros eng s2 Hc.
    destruct (main_ingest_brand W eng s2) as [[[]|e] s3] eqn:Hbr;
      [|rewrite (main_brand_Raise W _ _ _ _ _ Hc Hbr) in Hm; congruence].
    destruct (main_ingest_spend W eng s3) as [[[]|e] s4] eqn:Hsp;
      [|rewrite (main_spend_Raise W _ _ _ _ _ _ Hc Hbr Hsp) in Hm;
        congruence].
    split; intros Hex.
    - destruct (load_outcome W (BRAND_CSV W)) as [e|raw] eqn:Hload; [|eauto].
      rewrite main_ingest_brand_block in Hbr.
      by rewrite (ingest_block_read_fails W _ _ _ _ _ _ Hex Hload) in Hbr.
    - destruct (load_outcome W (SPEND_CSV W)) as [e|raw] eqn:Hload; [|eauto].
      rewrite main_ingest_spend_block in Hsp.
      by rewrite (ingest_block_read_fails W _ _ _ _ _ _ Hex Hload) in Hsp. }
  destruct (main_cases s0) as [(e & s1 & _ & Hm')
                              |[(eng & s1 & e & s2 & _ & _ & Hm')
                               |(eng & s2 & Hc)]]; [congruence..|].
  destruct (Hloads _ _ Hc) as [Hlb Hls].
  rewrite Hdb. unfold db_after_run, ingested.
  split; [|split; [|split]]; intros Hex.
  - destruct (Hlb Hex) as [raw Hraw].
    destruct (load_outcome W (BRAND_CSV W)) as [|raw']; [done|].
    injection Hraw as ->. exists raw. split; [done|]. rewrite Hex.
    destruct (path_exists W (SPEND_CSV W)) as [|[]];
      [|destruct (load_outcome W (SPEND_CSV W))|];
      rewrite ?lookup_insert_ne by done; apply lookup_insert_eq.
  - destruct (Hls Hex) as [raw Hraw].
    destruct (load_outcome W (SPEND_CSV W)) as [|raw']; [done|].
    injection Hraw as ->. exists raw. split; [done|]. rewrite Hex.
    apply lookup_insert_eq.
  - rewrite Hex.
    destruct (path_exists W (SPEND_CSV W)) as [|[]];
      [|destruct (load_outcome W (SPEND_CSV W))|];
      by rewrite ?lookup_insert_ne.
  - rewrite Hex.
    destruct (path_exists W (BRAND_CSV W)) as [|[]];
      [|destruct (load_outcome W (BRAND_CSV W))|];
      by rewrite ?lookup_insert_ne.
Qed.

Lemma db_after_run_idemp d :
  db_after_run W (db_after_run W d) = db_after_run W d.
Proof.
  unfold db_after_run, ingested.
  destruct (path_exists W (BRAND_CSV W)) as [|[]];
    [|destruct (load_outcome W (BRAND_CSV W))|];
    (destruct (path_exists W (SPEND_CSV W)) as [|[]];
     [|destruct (load_outcome W (SPEND_CSV W))|]);
    try done;
    apply map_eq; intros k; rewrite !lookup_insert;
    repeat case_decide; congruence.
Qed.

(** X3. Two runs in a row that both return normally, on the same files:
    the second leaves the database exactly as the first left it. *)
Theorem main_rerun_same_database (s0 s1 s2 : state) :
  main W s0 = (Ok tt, s1) →
  main W s1 = (Ok tt, s2) →
  db s2 = db s1.
Proof.
  intros H1 H2.
  rewrite (main_Ok_db _ _ H2), (main_Ok_db _ _ H1).
  apply db_after_run_idemp.
Qed.

(** *** Failures outside the loads *)

(** X5. If build_engine raises, main raises the same error at once: the run
    consists of the "Connecting" line and the calls of build_engine, the
    smoke test is not attempted, no file is checked, read or written,
    and the database is untouched. *)
Theorem no_driver_aborts_main (s0 : state) (e : exn) (s1 : state) :
  build_engine W (add_events s0 [EPrint "[INFO] Connecting to Azure SQL..."])
  = (Raise e, s1) →
  main W s0 = (Raise e, s1)
  ∧ db s1 = db s0
  ∧ ∃ evs,
      trace s1 = trace s0 ++ EPrint "[INFO] Connecting to Azure SQL..." :: evs
      ∧ Forall (call_of W Build) evs.
Proof.
  intros Hb.
  destruct (main_cases s0) as [(e' & s1' & Hb' & Hm)
                              |[(eng & s1' & e' & s2 & Hb' & _)
                               |(eng & s2 & s1' & Hb' & _)]];
    rewrite Hb in Hb'; [|done..]. injection Hb' as <- <-.
  split; [done|].
  destruct (build_engine_calls
              (add_events s0 [EPrint "[INFO] Connecting to Azure SQL..."]))
    as (evs & Hs1 & Hev & _).
  rewrite Hb in Hs1. simpl in Hs1. subst s1. split; [done|].
  exists evs. split; [|done]. simpl. by rewrite <- app_assoc.
Qed.

Lemma main_smoke_test_run eng s :
  let u := eng_url eng in
  main_smoke_test W eng s
  = match connect_err W Smoke u with
    | Some e => (Raise e, add_events s [EConnect Smoke u])
    | None =>
        match exec_scalar W Smoke u "SELECT @@VERSION" (db s) with
        | inl e =>
            (Raise e,
             add_events s [EConnect Smoke u;
                           EExecute Smoke u "SELECT @@VERSION"])
        | inr ver =>
            (Ok tt,
             add_events s
               [EConnect Smoke u; EExecute Smoke u "SELECT @@VERSION";
                EPrint ("[OK] Connected to SQL Server:" +:+ nl
                        +:+ str_scalar ver +:+ nl)])
        end
    end.
Proof.
  unfold main_smoke_test, connect, execute_scalar, print, emit, bind, ret,
    lift_err, lift_sum, get_db, raise. simpl.
  destruct (connect_err W Smoke _) as [e|]; simpl; [done|].
  destruct (exec_scalar W Smoke _ "SELECT @@VERSION" (db s)) as [e|v];
    simpl; by rewrite !add_events_app.
Qed.

Lemma main_smoke_Raise s0 eng s1 e s2 :
  build_engine W (add_events s0 [EPrint "[INFO] Connecting to Azure SQL..."])
  = (Ok eng, s1) →
  main_smoke_test W eng s1 = (Raise e, s2) →
  main W s0 = (Raise e, s2).
Proof.
  intros Hb Hs.
  destruct (main_cases s0) as [(e' & s1' & Hb' & _)
                              |[(eng' & s1' & e' & s2' & Hb' & Hs' & Hm)
                               |(eng' & s2' & s1' & Hb' & Hs')]];
    rewrite Hb in Hb'; try done; injection Hb' as <- <-;
    rewrite Hs in Hs'; [|done]. by injection Hs' as <- <-.
Qed.

(** X6. The smoke test of lines 81-83 is not optional.  Once build_engine
    has returned an engine: if the connection of line 81 does not open,
    main raises its error right after the attempt; if it opens and
    [SELECT @@VERSION] fails, main raises that error right after the
    query.  In both cases the run up to there holds connection calls
    only, so no file is checked, read or written and the counts are not
    reached, and the database is untouched.  These two are the only ways
    in which the smoke test raises. *)
Theorem smoke_test_failure_aborts_main (s0 : state) (eng : engine)
    (s1 : state) :
  build_engine W (add_events s0 [EPrint "[INFO] Connecting to Azure SQL..."])
  = (Ok eng, s1) →
  let u := eng_url eng in
  let aborts (e : exn) (evs : list event) :=
    main W s0 = (Raise e, add_events s1 evs)
    ∧ db (main W s0).2 = db s0
    ∧ Forall (call_of W SmokeTest) evs
    ∧ ∃ evs0,
        trace (main W s0).2 = trace s0 ++ evs0
        ∧ Forall (λ ev, is_connection_event ev = true
                        ∧ is_path_check ev = false ∧ is_read_csv ev = false
                        ∧ is_to_sql ev = false ∧ is_verify ev = false) evs0 in
  (∀ e, connect_err W Smoke u = Some e → aborts e [EConnect Smoke u])
  ∧ (∀ e,
       connect_err W Smoke u = None →
       exec_scalar W Smoke u "SELECT @@VERSION" (db s1) = inl e →
       aborts e [EConnect Smoke u; EExecute Smoke u "SELECT @@VERSION"])
  ∧ (∀ e s2,
       main_smoke_test W eng s1 = (Raise e, s2) →
       connect_err W Smoke u = Some e
       ∨ (connect_err W Smoke u = None
          ∧ exec_scalar W Smoke u "SELECT @@VERSION" (db s1) = inl e)).
Proof.
  intros Hb u aborts.
  assert (Haborts : ∀ e evs,
            main_smoke_test W eng s1 = (Raise e, add_events s1 evs) →
            aborts e evs).
  { intros e evs Hs.
    pose proof (main_smoke_Raise _ _ _ _ _ Hb Hs) as Hm.
    destruct (build_engine_calls
                (add_events s0 [EPrint "[INFO] Connecting to Azure SQL..."]))
      as (ev1 & Hs1 & _ & Hu).
    rewrite Hb in Hs1, Hu. simpl in Hs1. specialize (Hu eng eq_refl).
    destruct (main_smoke_test_calls eng s1 Hu) as (ev2 & Hs2 & Hev2).
    rewrite Hs in Hs2. simpl in Hs2.
    apply (f_equal trace) in Hs2. simpl in Hs2.
    apply app_inv_head in Hs2. subst ev2.
    destruct (build_engine_from_events W candidates None
                (add_events s0 [EPrint "[INFO] Connecting to Azure SQL..."]))
      as (ev1' & Hs1' & Hev1).
    destruct (main_smoke_test_events W eng s1) as (ev2' & Hs2' & Hev2').
    unfold build_engine in Hb. rewrite Hb in Hs1'. rewrite Hs in Hs2'.
    simpl in Hs1', Hs2'.
    apply (f_equal trace) in Hs2'. simpl in Hs2'.
    apply app_inv_head in Hs2'. subst ev2'.
    split; [exact Hm|]. rewrite Hm. simpl.
    split; [by rewrite Hs1|]. split; [exact Hev2|].
    exists ([EPrint "[INFO] Connecting to Azure SQL..."] ++ ev1' ++ evs).
    split.
    - rewrite Hs1'. simpl. by rewrite <- !app_assoc.
    - eapply Forall_impl.
      + rewrite !Forall_app. split; [|split; [exact Hev1|exact Hev2']].
        by repeat constructor.
      + intros ev Hev. split; [done|].
        by destruct ev as [| | |[]|[]|[]| | |]. }
  pose proof (main_smoke_test_run eng s1) as Hrun. simpl in Hrun.
  fold u in Hrun.
  split; [|split].
  - intros e He. apply Haborts. by rewrite Hrun, He.
  - intros e Hc He. apply Haborts. by rewrite Hrun, Hc, He.
  - intros e s2 Hs. rewrite Hrun in Hs.
    destruct (connect_err W Smoke u) as [e1|].
    + injection Hs as <- _. by left.
    + destruct (exec_scalar W Smoke u "SELECT @@VERSION" (db s1)) as [e1|v];
        [|done].
      injection Hs as <- _. by right.
Qed.

(** X7. If the write of the brand table fails, main raises the error of
    to_sql right after that call: the spend source is not checked, the
    counts are not reached, [dbo.brand] is whatever the failed write left
    and every other table is unchanged. *)
Theorem brand_write_failure_aborts_run (s0 : state) (eng : engine)
    (s2 : state) (raw : raw_csv) (e : exn) :
  connected W s0 eng s2 →
  path_exists W (BRAND_CSV W) = inr true →
  load_outcome W (BRAND_CSV W) = inr raw →
  to_sql_err W (eng_url eng) "brand" "dbo" (lowered_frame W raw) = Some e →
  (main W s0).1 = Raise e
  ∧ trace (main W s0).2
    = trace s2 ++ write_phase W "brand" (BRAND_CSV W) "brand" eng raw
  ∧ db (main W s0).2 !! "dbo.brand"
    = to_sql_leaves W (eng_url eng) "dbo.brand" (lowered_frame W raw)
        (db s0 !! "dbo.brand")
  ∧ ∀ k, k ≠ "dbo.brand" → db (main W s0).2 !! k = db s0 !! k.
Proof.
  intros Hc Hex Hload He.
  pose proof (ingest_block_loaded W "brand" _ "brand" eng s2 raw Hex Hload)
    as Hb.
  simpl in Hb. rewrite He, <- main_ingest_brand_block in Hb.
  rewrite (main_brand_Raise W _ _ _ _ _ Hc Hb). clear Hb. simpl.
  rewrite (connected_db W _ _ _ Hc).
  change (qualified "dbo" "brand") with "dbo.brand".
  split; [done|]. split; [done|].
  destruct (to_sql_leaves W (eng_url eng) "dbo.brand" (lowered_frame W raw)
              (db s0 !! "dbo.brand")) as [t|]; split.
  - apply lookup_insert_eq.
  - intros k Hk. by rewrite lookup_insert_ne.
  - apply lookup_delete_eq.
  - intros k Hk. by rewrite lookup_delete_ne.
Qed.

(** X8. If the spend block raises (its load or its write fails) after the
    brand source was loaded and written, main raises that error, the
    counts are not reached, and [dbo.brand] keeps its new contents: the
    first write is not undone. *)
Theorem spend_failure_keeps_brand (s0 : state) (eng : engine)
    (s2 s3 : state) (raw : raw_csv) (e : exn) (s4 : state) :
  connected W s0 eng s2 →
  loaded_and_written W eng (BRAND_CSV W) "brand" raw →
  main_ingest_brand W eng s2 = (Ok tt, s3) →
  main_ingest_spend W eng s3 = (Raise e, s4) →
  main W s0 = (Raise e, s4)
  ∧ db s4 !! "dbo.brand" = Some (written_table W raw)
  ∧ ∃ evs, trace s4 = trace s3 ++ evs
           ∧ Forall (call_of W (Ingest (SPEND_CSV W) "daily_spend")) evs.
Proof.
  intros Hc Hlw Hb Hs.
  pose proof (main_spend_Raise W _ _ _ _ _ _ Hc Hb Hs) as Hm.
  split; [done|]. split.
  - pose proof (main_brand_table W _ _ _ _ Hc Hlw) as Ht.
    by rewrite Hm in Ht.
  - destruct (connected_calls _ _ _ Hc) as (Hu & _).
    destruct (ingest_block_calls "spend" (SPEND_CSV W) "daily_spend" eng s3
                Hu) as (evs & Ht & Hev).
    rewrite <- main_ingest_spend_block, Hs in Ht. by exists evs.
Qed.

(** *** The choice of the driver *)

(** X13. build_engine returns the engine of driver 18 when its probe succeeds
    and then builds no URL for driver 17; otherwise it returns the engine
    of driver 17 when that probe succeeds; otherwise it raises the
    RuntimeError that quotes the error of driver 17.  It never changes
    the database. *)
Theorem build_engine_prefers_driver_18 (s : state) :
  let d18 := "ODBC Driver 18 for SQL Server" in
  let d17 := "ODBC Driver 17 for SQL Server" in
  ∃ evs,
    build_engine W s
    = (match probe_error W (db s) d18 with
       | None => Ok (engine_for W d18)
       | Some _ =>
           match probe_error W (db s) d17 with
           | None => Ok (engine_for W d17)
           | Some e =>
               Raise (RuntimeError
                        ("No usable ODBC driver found. Last error: "
                         +:+ exn_str e))
           end
       end, add_events s evs)
    ∧ urls_created evs
      = match probe_error W (db s) d18 with
        | None => [url_for W d18]
        | Some _ => [url_for W d18; url_for W d17]
        end.
Proof.
  intros d18 d17. unfold build_engine, candidates. fold d18 d17.
  destruct (try_driver_run W d18 s) as (ev1 & Hrun1 & Hurl1 & _).
  destruct (probe_error W (db s) d18) as [e18|] eqn:H18.
  - rewrite (build_engine_from_cons_raise W _ _ _ _ _ _ Hrun1).
    set (s1 := add_events (add_events s ev1) [EPrint (warn_line d18 e18)]).
    destruct (try_driver_run W d17 s1) as (ev2 & Hrun2 & Hurl2 & _).
    change (db s1) with (db s) in Hrun2.
    destruct (probe_error W (db s) d17) as [e17|] eqn:H17.
    + rewrite (build_engine_from_cons_raise W _ _ _ _ _ _ Hrun2). simpl.
      unfold raise, s1. rewrite !add_events_app.
      eexists. split; [reflexivity|].
      by rewrite !urls_created_app, Hurl1, Hurl2.
    + rewrite (build_engine_from_cons_ok W _ _ _ _ _ _ Hrun2).
      unfold s1. rewrite !add_events_app.
      eexists. split; [reflexivity|].
      by rewrite !urls_created_app, Hurl1, Hurl2.
  - rewrite (build_engine_from_cons_ok W _ _ _ _ _ _ Hrun1).
    by exists ev1.
Qed.

Lemma odbc_string_inj d1 d2 : odbc_string W d1 = odbc_string W d2 → d1 = d2.
Proof.
  unfold odbc_string. intros H.
  apply (inj (String.app "DRIVER={")) in H.
  by apply str_app_inj_r in H.
Qed.

(** X14. Two different driver names never give the same connection string,
    URL or engine: the engine that build_engine returns tells which
    driver was chosen. *)
Theorem distinct_drivers_distinct_engines (d1 d2 : string) :
  d1 ≠ d2 →
  odbc_string W d1 ≠ odbc_string W d2
  ∧ url_for W d1 ≠ url_for W d2
  ∧ engine_for W d1 ≠ engine_for W d2.
Proof.
  intros Hne.
  assert (H : odbc_string W d1 ≠ odbc_string W d2).
  { intros H. by apply Hne, odbc_string_inj. }
  split; [done|]. split.
  - unfold url_for. intros Hu. apply H. congruence.
  - unfold engine_for, url_for. intros Hu. apply H. congruence.
Qed.

(** *** The counts see the new tables *)

(** X15. In a run that returns from both blocks and opens the connection of
    line 101: if the server answers a row count with the number of rows
    of the table it holds, the [OK] line of a source that was loaded and
    written reports the number of data rows of its CSV. *)
Theorem counts_report_csv_rows (s0 : state) (eng : engine)
    (s2 s3 s4 : state) :
  connected W s0 eng s2 →
  main_ingest_brand W eng s2 = (Ok tt, s3) →
  main_ingest_spend W eng s3 = (Ok tt, s4) →
  connect_err W Verify (eng_url eng) = None →
  (∀ t tbl,
      db s4 !! ("dbo." +:+ t) = Some tbl →
      exec_scalar W Verify (eng_url eng) (count_sql t) (db s4)
      = inr (SInt (Z.of_nat (length (trows tbl))))) →
  ∃ evs,
    main W s0 = (Ok tt, add_events s4 evs)
    ∧ (∀ raw,
         loaded_and_written W eng (BRAND_CSV W) "brand" raw →
         EPrint (count_line "brand"
                   (SInt (Z.of_nat (length (records raw))))) ∈ evs)
    ∧ (∀ raw,
         loaded_and_written W eng (SPEND_CSV W) "daily_spend" raw →
         EPrint (count_line "daily_spend"
                   (SInt (Z.of_nat (length (records raw))))) ∈ evs).
Proof.
  intros Hc Hb Hs Hv Hserver.
  pose proof (main_spend_Ok W _ _ _ _ _ Hc Hb Hs) as Hm.
  assert (Hdb : db (main W s0).2 = db s4) by by rewrite Hm, sanity_tail_db.
  rewrite sanity_tail_run, Hv in Hm.
  exists (sanity_events W eng (db s4) ++ [EPrint done_line]).
  split; [done|].
  assert (Hline : ∀ t raw,
            db s4 !! ("dbo." +:+ t) = Some (written_table W raw) →
            EPrint (count_line t (SInt (Z.of_nat (length (records raw)))))
            ∈ count_events W eng (db s4) t).
  { intros t raw Ht. unfold count_events. rewrite (Hserver _ _ Ht).
    simpl. rewrite length_map. right. left. }
  split; intros raw Hlw.
  - apply elem_of_app. left. unfold sanity_events. right.
    apply elem_of_app. left. apply Hline.
    rewrite <- Hdb. by eapply main_brand_table.
  - apply elem_of_app. left. unfold sanity_events. right.
    apply elem_of_app. right. apply Hline.
    rewrite <- Hdb. by eapply main_spend_table.
Qed.

End Runs.

(** ** Instances of the whole-run theorems *)

Lemma main_touches_only_its_tables_witness :
  db (main Sample.w17 Faults.s_other).2 !! "dbo.audit"
  = db Faults.s_other !! "dbo.audit".
Proof.
  apply (main_touches_only_its_tables Sample.w17 Faults.s_other "dbo.audit").
  - vm_compute. discriminate.
  - vm_compute. discriminate.
Defined.

Lemma main_ok_database_witness :
  let W := Sample.w_nobrand in
  let s' := (main W Sample.s_init).2 in
  db s' = db_after_run W (db Sample.s_init)
  ∧ (path_exists W (BRAND_CSV W) = inr true →
     ∃ raw, load_outcome W (BRAND_CSV W) = inr raw
            ∧ db s' !! "dbo.brand" = Some (written_table W raw))
  ∧ (path_exists W (SPEND_CSV W) = inr true →
     ∃ raw, load_outcome W (SPEND_CSV W) = inr raw
            ∧ db s' !! "dbo.daily_spend" = Some (written_table W raw))
  ∧ (path_exists W (BRAND_CSV W) = inr false →
     db s' !! "dbo.brand" = db Sample.s_init !! "dbo.brand")
  ∧ (path_exists W (SPEND_CSV W) = inr false →
     db s' !! "dbo.daily_spend" = db Sample.s_init !! "dbo.daily_spend").
Proof.
  intros W s'. apply (main_ok_database W Sample.s_init s').
  vm_compute. reflexivity.
Defined.

Lemma main_rerun_same_database_witness :
  let s1 := (main Sample.w17 Sample.s_init).2 in
  let s2 := (main Sample.w17 s1).2 in
  db s2 = db s1.
Proof.
  intros s1 s2.
  apply (main_rerun_same_database Sample.w17 Sample.s_init s1 s2).
  - vm_compute. reflexivity.
  - vm_compute. reflexivity.
Defined.

Lemma no_driver_aborts_main_witness :
  let W := Sample.w_nodriver in
  let e := RuntimeError "No usable ODBC driver found. Last error: ('IM002', '[IM002] Data source name not found and no default driver specified')" in
  let s1 := (build_engine W
               (add_events Sample.s_init
                  [EPrint "[INFO] Connecting to Azure SQL..."])).2 in
  main W Sample.s_init = (Raise e, s1)
  ∧ db s1 = db Sample.s_init
  ∧ ∃ evs,
      trace s1
      = trace Sample.s_init
        ++ EPrint "[INFO] Connecting to Azure SQL..." :: evs
      ∧ Forall (call_of W Build) evs.
Proof.
  intros W e s1. apply (no_driver_aborts_main W Sample.s_init e s1).
  vm_compute. reflexivity.
Defined.

Lemma smoke_test_failure_aborts_main_witness :
  (let eng := engine_for Faults.w_smoke_fails Sample.driver17 in
   let s1 := (build_engine Faults.w_smoke_fails
                (add_events Sample.s_init
                   [EPrint "[INFO] Connecting to Azure SQL..."])).2 in
   main Faults.w_smoke_fails Sample.s_init
   = (Raise Faults.connection_lost,
      add_events s1 [EConnect Smoke (eng_url eng)])
   ∧ db (main Faults.w_smoke_fails Sample.s_init).2 = db Sample.s_init)
  ∧ (let eng := engine_for Faults.w_version_fails Sample.driver17 in
     let s1 := (build_engine Faults.w_version_fails
                  (add_events Sample.s_init
                     [EPrint "[INFO] Connecting to Azure SQL..."])).2 in
     main Faults.w_version_fails Sample.s_init
     = (Raise Faults.connection_lost,
        add_events s1 [EConnect Smoke (eng_url eng);
                       EExecute Smoke (eng_url eng) "SELECT @@VERSION"])
     ∧ db (main Faults.w_version_fails Sample.s_init).2 = db Sample.s_init).
Proof.
  split; intros eng s1.
  - assert (Hb : build_engine Faults.w_smoke_fails
                   (add_events Sample.s_init
                      [EPrint "[INFO] Connecting to Azure SQL..."])
                 = (Ok eng, s1)) by (vm_compute; reflexivity).
    pose proof (smoke_test_failure_aborts_main Faults.w_smoke_fails
                  Sample.s_init eng s1 Hb) as H.
    cbv zeta in H. destruct H as (Hconn & _ & _).
    destruct (Hconn Faults.connection_lost) as (Hm & Hdb & _);
      [vm_compute; reflexivity|].
    by split.
  - assert (Hb : build_engine Faults.w_version_fails
                   (add_events Sample.s_init
                      [EPrint "[INFO] Connecting to Azure SQL..."])
                 = (Ok eng, s1)) by (vm_compute; reflexivity).
    pose proof (smoke_test_failure_aborts_main Faults.w_version_fails
                  Sample.s_init eng s1 Hb) as H.
    cbv zeta in H. destruct H as (_ & Hquery & _).
    destruct (Hquery Faults.connection_lost) as (Hm & Hdb & _);
      [vm_compute; reflexivity..|].
    by split.
Defined.

Lemma brand_write_failure_aborts_run_witness :
  let W := Faults.w_brand_refused in
  let eng := engine_for W Sample.driver17 in
  let s2 := Sample.after_connection W Sample.s_init in
  (main W Sample.s_init).1 = Raise Faults.permission_denied
  ∧ trace (main W Sample.s_init).2
    = trace s2
      ++ write_phase W "brand" (BRAND_CSV W) "brand" eng Sample.brand_csv
  ∧ db (main W Sample.s_init).2 !! "dbo.brand"
    = to_sql_leaves W (eng_url eng) "dbo.brand"
        (lowered_frame W Sample.brand_csv) (db Sample.s_init !! "dbo.brand")
  ∧ ∀ k, k ≠ "dbo.brand" →
         db (main W Sample.s_init).2 !! k = db Sample.s_init !! k.
Proof.
  intros W eng s2.
  apply (brand_write_failure_aborts_run W Sample.s_init eng s2
           Sample.brand_csv Faults.permission_denied).
  - run_connected.
  - vm_compute. reflexivity.
  - vm_compute. reflexivity.
  - vm_compute. reflexivity.
Defined.

Lemma spend_failure_keeps_brand_witness :
  let W := Faults.w_spend_refused in
  let eng := engine_for W Sample.driver17 in
  let s2 := Sample.after_connection W Sample.s_init in
  let s3 := (main_ingest_brand W eng s2).2 in
  let s4 := (main_ingest_spend W eng s3).2 in
  main W Sample.s_init = (Raise Faults.permission_denied, s4)
  ∧ db s4 !! "dbo.brand" = Some (written_table W Sample.brand_csv)
  ∧ ∃ evs, trace s4 = trace s3 ++ evs
           ∧ Forall (call_of W (Ingest (SPEND_CSV W) "daily_spend")) evs.
Proof.
  intros W eng s2 s3 s4.
  apply (spend_failure_keeps_brand W Sample.s_init eng s2 s3
           Sample.brand_csv Faults.permission_denied s4).
  - run_connected.
  - run_loaded.
  - vm_compute. reflexivity.
  - vm_compute. reflexivity.
Defined.

Lemma distinct_drivers_distinct_engines_witness :
  odbc_string Sample.w17 Sample.driver18
  ≠ odbc_string Sample.w17 Sample.driver17
  ∧ url_for Sample.w17 Sample.driver18 ≠ url_for Sample.w17 Sample.driver17
  ∧ engine_for Sample.w17 Sample.driver18
    ≠ engine_for Sample.w17 Sample.driver17.
Proof.
  apply (distinct_drivers_distinct_engines Sample.w17 Sample.driver18
           Sample.driver17).
  vm_compute. discriminate.
Defined.

Lemma counts_report_csv_rows_witness :
  let W := Sample.w17 in
  let eng := engine_for W Sample.driver17 in
  let s2 := Sample.after_connection W Sample.s_init in
  let s3 := (main_ingest_brand W eng s2).2 in
  let s4 := (main_ingest_spend W eng s3).2 in
  ∃ evs,
    main W Sample.s_init = (Ok tt, add_events s4 evs)
    ∧ EPrint "[OK] brand: 3 rows" ∈ evs
    ∧ EPrint "[OK] daily_spend: 1 rows" ∈ evs.
Proof.
  intros W eng s2 s3 s4.
  destruct (counts_report_csv_rows W Sample.s_init eng s2 s3 s4)
    as (evs & Hm & Hbrand & Hspend).
  - run_connected.
  - vm_compute. reflexivity.
  - vm_compute. reflexivity.
  - vm_compute. reflexivity.
  - intros t tbl Ht. unfold W, Sample.w17, Sample.mk, Sample.mk_env, exec_scalar.
    unfold Sample.server_exec, count_sql.
    rewrite bool_decide_eq_false_2 by discriminate.
    rewrite bool_decide_eq_false_2 by discriminate.
    change (Sample.strip_prefix "SELECT COUNT(*) FROM "
              ("SELECT COUNT(*) FROM dbo." +:+ t)) with (Some ("dbo." +:+ t)).
    cbv beta iota. by rewrite Ht.
  - exists evs. split; [exact Hm|]. split.
    + apply (Hbrand Sample.brand_csv). run_loaded.
    + apply (Hspend Sample.spend_csv). run_loaded.
Defined.
